(** * NoteApp: the note / project data model and its persistence

    A shallow embedding of [NoteApp.py]: the classes [NoteCategory], [Note],
    [Project] and [ProjectManager].  The Tkinter front end ([NoteApp]) only
    calls into these four classes and is not modelled.

    Conventions.
    - A Python [str] is a list of Unicode code points, so that the slice
      [heading[:50]] counts characters and not bytes.
    - A [dict] with string keys is a [gmap string _]; [d[k]] raises
      [KeyError] on a missing key.
    - [datetime.now()] reads a wall clock.  The clock is part of the world
      the code runs in: a sequence of readings and the number of readings
      consumed so far.
    - Code that reads the clock, the storage file, or raises, lives in the
      monad [M] (world passing with exceptions).
    - Of the library, [datetime.fromisoformat] is modelled on the format
      [isoformat] writes and on the strings it certainly rejects; a run that
      parses any other string ends [Beyond], and nothing is stated of it.
    - Objects are modelled by value.  No operation below mutates a note
      while it is shared, so aliasing is not observable in what is proved. *)

From stdpp Require Import gmap strings list.
From Stdlib Require Import NArith Lia Ascii.

Local Open Scope N_scope.

(** ** Python strings *)

(** A code point. *)
Definition char : Type := N.

(** A Python [str]. *)
Definition str : Type := list char.

(** Decoding of UTF-8 bytes, used to write the string literals of the source
    as they stand there (this file, like the source, is UTF-8). *)
Fixpoint decode_utf8 (bs : list N) : str :=
  match bs with
  | [] => []
  | b :: bs1 =>
      if b <? 128 then b :: decode_utf8 bs1
      else if b <? 224 then
        match bs1 with
        | b2 :: r => (b mod 32 * 64 + b2 mod 64) :: decode_utf8 r
        | _ => []
        end
      else if b <? 240 then
        match bs1 with
        | b2 :: b3 :: r =>
            (b mod 16 * 4096 + b2 mod 64 * 64 + b3 mod 64) :: decode_utf8 r
        | _ => []
        end
      else
        match bs1 with
        | b2 :: b3 :: b4 :: r =>
            (b mod 8 * 262144 + b2 mod 64 * 4096 + b3 mod 64 * 64 + b4 mod 64)
              :: decode_utf8 r
        | _ => []
        end
  end.

(** A string literal of the source. *)
Definition lit (s : string) : str :=
  decode_utf8 (N_of_ascii <$> String.list_ascii_of_string s).

(** [bool(s)] for a string: the empty string is false. *)
Definition str_truthy (s : str) : bool :=
  match s with [] => false | _ => true end.

(** ** The [datetime] class of the standard library (naive values)

    [datetime.now()] is called without a time zone, so every timestamp the
    application creates is naive.  The model covers naive values only. *)
Module datetime.

Record t : Type := mk {
  year : N; month : N; day : N;
  hour : N; minute : N; second : N; microsecond : N
}.

Definition is_leap (y : N) : bool :=
  (y mod 4 =? 0) && (negb (y mod 100 =? 0) || (y mod 400 =? 0)).

Definition days_in_month (y m : N) : N :=
  match m with
  | 2 => if is_leap y then 29 else 28
  | 4 | 6 | 9 | 11 => 30
  | _ => 31
  end.

(** The range checks of the [datetime] constructor (MINYEAR = 1,
    MAXYEAR = 9999).  Every [datetime] object satisfies them. *)
Definition valid (d : t) : bool :=
  (1 <=? year d) && (year d <=? 9999) &&
  (1 <=? month d) && (month d <=? 12) &&
  (1 <=? day d) && (day d <=? days_in_month (year d) (month d)) &&
  (hour d <? 24) && (minute d <? 60) && (second d <? 60) &&
  (microsecond d <? 1000000).

(** Comparison: naive values compare as the tuples of their fields. *)
Definition timetuple (d : t) : list N :=
  [year d; month d; day d; hour d; minute d; second d; microsecond d].

Fixpoint lex_compare (a b : list N) : comparison :=
  match a, b with
  | [], [] => Eq
  | [], _ :: _ => Lt
  | _ :: _, [] => Gt
  | x :: a1, y :: b1 =>
      match x ?= y with
      | Eq => lex_compare a1 b1
      | c => c
      end
  end.

(** [a <= b] *)
Definition le (a b : t) : bool :=
  match lex_compare (timetuple a) (timetuple b) with
  | Gt => false
  | _ => true
  end.

(** [a < b] *)
Definition lt (a b : t) : bool :=
  match lex_compare (timetuple a) (timetuple b) with
  | Lt => true
  | _ => false
  end.

(** *** [isoformat] *)

(** ['%0wd' % v]: [v] in decimal, zero padded to [w] digits ([v < 10^w]). *)
Fixpoint zero_pad (w : nat) (v : N) : str :=
  match w with
  | O => []
  | S w1 => zero_pad w1 (v / 10) ++ [48 + v mod 10]
  end.

Definition HYPHEN : char := 45.
Definition COLON : char := 58.
Definition FULL_STOP : char := 46.
Definition LETTER_T : char := 84.

(** [d.isoformat()] with the default separator ['T'] and
    [timespec='auto']: the microseconds are written only when not zero. *)
Definition isoformat (d : t) : str :=
  zero_pad 4 (year d) ++ [HYPHEN] ++ zero_pad 2 (month d) ++ [HYPHEN] ++
  zero_pad 2 (day d) ++ [LETTER_T] ++
  zero_pad 2 (hour d) ++ [COLON] ++ zero_pad 2 (minute d) ++ [COLON] ++
  zero_pad 2 (second d) ++
  (if microsecond d =? 0 then [] else FULL_STOP :: zero_pad 6 (microsecond d)).

(** *** [fromisoformat]

    The grammar documented for [datetime.fromisoformat], without the
    UTC offset (which would give an aware value, outside this model):
    [YYYY-MM-DD[*HH[:MM[:SS[.fff[fff]]]]]], where [*] is any one
    character, followed by the constructor's range checks.  [Some d] is
    the value the library returns; [None] says that the string is not a
    valid timestamp in this format (see [rejected] below for the strings on
    which the library raises). *)

Definition is_digit (c : char) : bool := (48 <=? c) && (c <=? 57).

(** Reads exactly [w] ASCII digits, most significant first. *)
Fixpoint parse_digits (w : nat) (acc : N) (s : str) : option (N * str) :=
  match w with
  | O => Some (acc, s)
  | S w1 =>
      match s with
      | c :: s1 =>
          if is_digit c then parse_digits w1 (10 * acc + (c - 48)) s1
          else None
      | [] => None
      end
  end.

(** Reads the one character [c]. *)
Definition expect (c : char) (s : str) : option str :=
  match s with
  | c1 :: s1 => if c1 =? c then Some s1 else None
  | [] => None
  end.

(** [.fff[fff]] up to the end of the string. *)
Definition parse_fraction (s : str) : option N :=
  match length s with
  | 3%nat => '(v, _) ← parse_digits 3 0 s; Some (v * 1000)
  | 6%nat => '(v, _) ← parse_digits 6 0 s; Some v
  | _ => None
  end.

(** [HH[:MM[:SS[.fff[fff]]]]] up to the end of the string. *)
Definition parse_time (s : str) : option (N * N * N * N) :=
  '(hh, s1) ← parse_digits 2 0 s;
  match s1 with
  | [] => Some (hh, 0, 0, 0)
  | _ =>
      s2 ← expect COLON s1;
      '(mm, s3) ← parse_digits 2 0 s2;
      match s3 with
      | [] => Some (hh, mm, 0, 0)
      | _ =>
          s4 ← expect COLON s3;
          '(ss, s5) ← parse_digits 2 0 s4;
          match s5 with
          | [] => Some (hh, mm, ss, 0)
          | _ =>
              s6 ← expect FULL_STOP s5;
              us ← parse_fraction s6;
              Some (hh, mm, ss, us)
          end
      end
  end.

(** [YYYY-MM-DD] at the head of the string. *)
Definition parse_date (s : str) : option (N * N * N * str) :=
  '(y, s1) ← parse_digits 4 0 s;
  s2 ← expect HYPHEN s1;
  '(m, s3) ← parse_digits 2 0 s2;
  s4 ← expect HYPHEN s3;
  '(d, s5) ← parse_digits 2 0 s4;
  Some (y, m, d, s5).

Definition fromisoformat (date_string : str) : option t :=
  '(y, m, d, rest) ← parse_date date_string;
  '(hh, mm, ss, us) ←
    match rest with
    | [] => Some (0, 0, 0, 0)
    | _ :: tstr => parse_time tstr
    end;
  let r := mk y m d hh mm ss us in
  if valid r then Some r else None.

(** The fields [fromisoformat] reads, before the range checks. *)
Definition scan (date_string : str) : option t :=
  '(y, m, d, rest) ← parse_date date_string;
  '(hh, mm, ss, us) ←
    match rest with
    | [] => Some (0, 0, 0, 0)
    | _ :: tstr => parse_time tstr
    end;
  Some (mk y m d hh mm ss us).

(** [fromisoformat] above is not the whole of the library's function: the
    library also reads UTC offsets and ["Z"] (giving aware values), other
    lengths of the fraction, the basic and the week formats.  So [None]
    alone does not mean that the library raises.  [rejected] holds of
    strings on which it certainly raises [ValueError]: fewer than 7
    characters (the shortest date the library reads is [YYYYWww]), a year
    that is not four ASCII digits, or fields written in the format above
    that fail the constructor's range checks.  (An hour of 24 is left out
    of the last case: later versions of the library read [24:00].) *)
Definition rejected (s : str) : bool :=
  (length s <? 7)%nat ||
  match parse_digits 4 0 s with Some _ => false | None => true end ||
  match scan s with
  | Some r => negb (valid r) && negb (hour r =? 24)
  | None => false
  end.

End datetime.

(** ** The world the code runs in, and the monad of effects *)

(** The exceptions the modelled code can raise. *)
Inductive exn : Type :=
| KeyError (key : string)
| ValueError
| JSONDecodeError
| UnicodeEncodeError.

(** How a run ends: with a value, with an exception, or [Beyond] what this
    model describes.  A run is [Beyond] when it calls
    [datetime.fromisoformat] on a string that is neither in the format
    modelled nor certainly rejected; nothing is said of what the code does
    from there on. *)
Inductive result (A : Type) : Type :=
| Ok (a : A)
| Raise (e : exn)
| Beyond.
Arguments Ok {A} a.
Arguments Raise {A} e.
Arguments Beyond {A}.

(** What [json.load] finds in the storage file: a document of the shape
    [ProjectManager] writes, [{"notes": [{key: text, ...}, ...]}] (a file
    written by [json.dump] is identified with the document it denotes), or
    text that is no JSON at all. *)
Inductive file : Type :=
| Document (data : gmap string (list (gmap string str)))
| NotJSON.

Record world : Type := World {
  (** the successive readings of [datetime.now()] *)
  clock : nat → datetime.t;
  (** how many readings were taken so far *)
  ticks : nat;
  (** the file at [ProjectManager.DEFAULT_FILE_PATH], if it exists *)
  storage : option file
}.

Definition M (A : Type) : Type := world → result A * world.

#[global] Instance M_ret : MRet M := λ A (a : A) w, (Ok a, w).

#[global] Instance M_bind : MBind M := λ A B (f : A → M B) (m : M A) w,
  match m w with
  | (Ok a, w1) => f a w1
  | (Raise e, w1) => (Raise e, w1)
  | (Beyond, w1) => (Beyond, w1)
  end.

Definition raise {A : Type} (e : exn) : M A := λ w, (Raise e, w).

Definition beyond {A : Type} : M A := λ w, (Beyond, w).

(** The outcome of a computation, without the world it leaves. *)
Definition outcome {A : Type} (m : M A) (w : world) : result A := (m w).1.

(** The world after one more reading of the clock. *)
Definition advance (w : world) : world :=
  World (clock w) (S (ticks w)) (storage w).

(** [datetime.now()] *)
Definition datetime_now : M datetime.t := λ w,
  (Ok (clock w (ticks w)), advance w).

(** [datetime.fromisoformat(s)]: the value read in the format modelled,
    [ValueError] on a string the library certainly rejects, and otherwise
    no statement. *)
Definition datetime_fromisoformat (s : str) : M datetime.t :=
  match datetime.fromisoformat s with
  | Some d => mret d
  | None => if datetime.rejected s then raise ValueError else beyond
  end.

(** [d[k]] *)
Definition getitem {V : Type} (d : gmap string V) (k : string) : M V :=
  match d !! k with
  | Some v => mret v
  | None => raise (KeyError k)
  end.

(** A list comprehension [[f(x) for x in l]]: left to right, the first
    exception ends it. *)
Fixpoint comprehension {A B : Type} (f : A → M B) (l : list A) : M (list B) :=
  match l with
  | [] => mret []
  | x :: l1 => y ← f x; ys ← comprehension f l1; mret (y :: ys)
  end.

(** ** [class NoteCategory(Enum)] *)
Module NoteCategory.

Inductive t : Type :=
| WORK | HOME | HEALTH | PEOPLE | DOCUMENTS | FINANCE | MISC.

Definition value (c : t) : str :=
  match c with
  | WORK => lit "Работа"
  | HOME => lit "Дом"
  | HEALTH => lit "Здоровье и Спорт"
  | PEOPLE => lit "Люди"
  | DOCUMENTS => lit "Документы"
  | FINANCE => lit "Финансы"
  | MISC => lit "Разное"
  end.

Definition members : list t :=
  [WORK; HOME; HEALTH; PEOPLE; DOCUMENTS; FINANCE; MISC].

(** The member whose value is [v], if any. *)
Definition by_value (v : str) : option t :=
  find (λ c, bool_decide (value c = v)) members.

(** [NoteCategory(v)]: lookup by value, [ValueError] when [v] is the
    value of no member. *)
Definition call (v : str) : M t :=
  match by_value v with
  | Some c => mret c
  | None => raise ValueError
  end.

End NoteCategory.

(** ** [class Note] *)
Module Note.

Record t : Type := mk {
  title : str;
  category : NoteCategory.t;
  content : str;
  created_at : datetime.t;
  updated_at : datetime.t
}.

Definition with_title (v : str) (self : t) : t :=
  mk v (category self) (content self) (created_at self) (updated_at self).
Definition with_category (v : NoteCategory.t) (self : t) : t :=
  mk (title self) v (content self) (created_at self) (updated_at self).
Definition with_content (v : str) (self : t) : t :=
  mk (title self) (category self) v (created_at self) (updated_at self).
Definition with_created_at (v : datetime.t) (self : t) : t :=
  mk (title self) (category self) (content self) v (updated_at self).
Definition with_updated_at (v : datetime.t) (self : t) : t :=
  mk (title self) (category self) (content self) (created_at self) v.

(** The default arguments of [__init__]. *)
Definition default_heading : str := lit "Без названия".
Definition default_category : NoteCategory.t := NoteCategory.MISC.
Definition default_content_body : str := [].

Definition __init__ (heading : str) (category : NoteCategory.t)
    (content_body : str) : M t :=
  let title := take 50 heading in
  let content := content_body in
  created_at ← datetime_now;
  let updated_at := created_at in
  mret (mk title category content created_at updated_at).

(** [update]: an argument left out is [None].  [if heading:] is false for
    [None] and for the empty string; a member of [NoteCategory] (a plain
    [Enum]) is always true. *)
Definition update (heading : option str) (category : option NoteCategory.t)
    (content_body : option str) (self : t) : M t :=
  let self :=
    match heading with
    | Some h => if str_truthy h then with_title (take 50 h) self else self
    | None => self
    end in
  let self :=
    match category with
    | Some c => with_category c self
    | None => self
    end in
  let self :=
    match content_body with
    | Some b => if str_truthy b then with_content b self else self
    | None => self
    end in
  now ← datetime_now;
  mret (with_updated_at now self).

Definition to_dict (self : t) : gmap string str :=
  list_to_map [
    ("title", title self);
    ("category", NoteCategory.value (category self));
    ("content", content self);
    ("created_at", datetime.isoformat (created_at self));
    ("updated_at", datetime.isoformat (updated_at self))
  ].

Definition from_dict (data : gmap string str) : M t :=
  heading ← getitem data "title";
  category_value ← getitem data "category";
  category ← NoteCategory.call category_value;
  content_body ← getitem data "content";
  note_instance ← __init__ heading category content_body;
  created_text ← getitem data "created_at";
  created ← datetime_fromisoformat created_text;
  let note_instance := with_created_at created note_instance in
  updated_text ← getitem data "updated_at";
  updated ← datetime_fromisoformat updated_text;
  let note_instance := with_updated_at updated note_instance in
  mret note_instance.

(** What the class docstring says of the attributes: the title has at
    most 50 characters, and the two timestamps are [datetime] objects. *)
Definition invariant (n : t) : Prop :=
  (length (title n) ≤ 50)%nat ∧
  datetime.valid (created_at n) = true ∧
  datetime.valid (updated_at n) = true.

End Note.

(** ** [class Project] *)
Module Project.

Record t : Type := mk { memo_collection : list Note.t }.

Definition with_memo_collection (v : list Note.t) (self : t) : t := mk v.

Definition __init__ : t := mk [].

Definition add_note (note_obj : Note.t) (self : t) : t :=
  with_memo_collection (memo_collection self ++ [note_obj]) self.

(** [index] is a Python [int]. *)
Definition remove_note_by_index (index : Z) (self : t) : t :=
  if bool_decide (0 ≤ index)%Z &&
     bool_decide (index < Z.of_nat (length (memo_collection self)))%Z
  then with_memo_collection
         (delete (Z.to_nat index) (memo_collection self)) self
  else self.

Definition to_dict (self : t) : gmap string (list (gmap string str)) :=
  {[ "notes" := Note.to_dict <$> memo_collection self ]}.

Definition from_dict (data : gmap string (list (gmap string str))) : M t :=
  let project_instance := __init__ in
  notes ← getitem data "notes";
  loaded ← comprehension Note.from_dict notes;
  mret (with_memo_collection loaded project_instance).

End Project.

(** ** [class ProjectManager] *)
Module ProjectManager.

(** [os.path.exists(DEFAULT_FILE_PATH)] *)
Definition path_exists : M bool := λ w,
  (Ok (bool_decide (is_Some (storage w))), w).

(** [json.load(open(DEFAULT_FILE_PATH))] on an existing file. *)
Definition json_load : M (gmap string (list (gmap string str))) := λ w,
  match storage w with
  | Some (Document data) => (Ok data, w)
  | _ => (Raise JSONDecodeError, w)
  end.

(** A string the [utf-8] codec can encode: no code point is a surrogate
    (U+D800 to U+DFFF). *)
Definition utf8_encodable (s : str) : bool :=
  forallb (λ c, (c <? 55296) || ((57343 <? c) && (c <=? 1114111))) s.

(** Every text of the document can be encoded.  (The keys are those that
    [to_dict] writes, which are ASCII.) *)
Definition encodable (data : gmap string (list (gmap string str))) : Prop :=
  map_Forall
    (λ _ records,
       Forall (map_Forall (λ _ text, utf8_encodable text = true)) records)
    data.

(** [json.dump(data, file, ensure_ascii=False, indent=4)] inside
    [with open(DEFAULT_FILE_PATH, "w", encoding="utf-8")]: opening truncates
    the file, and the document is written in full.  A text with a surrogate
    code point cannot be encoded: [UnicodeEncodeError] is raised and the file
    is left with the beginning of the document only, which is no JSON.
    (That the path is writable is assumed.) *)
Definition json_dump (data : gmap string (list (gmap string str))) : M unit :=
  λ w,
    if decide (encodable data)
    then (Ok (), World (clock w) (ticks w) (Some (Document data)))
    else (Raise UnicodeEncodeError, World (clock w) (ticks w) (Some NotJSON)).

Definition save_project (project : Project.t) : M unit :=
  json_dump (Project.to_dict project).

Definition load_project : M Project.t :=
  found ← path_exists;
  if found : bool then
    data ← json_load;
    Project.from_dict data
  else
    mret Project.__init__.

End ProjectManager.

(** ** Vocabulary of the statements *)

(** The clock never runs backwards. *)
Definition monotone (clk : nat → datetime.t) : Prop :=
  ∀ i j : nat, (i ≤ j)%nat → datetime.le (clk i) (clk j) = true.

(** [w1] is [w] some time later: the same clock, no reading given back. *)
Definition later (w w1 : world) : Prop :=
  clock w1 = clock w ∧ (ticks w ≤ ticks w1)%nat.

(** The notes that exist in a world: built by the constructor, changed by
    [update], or read by [from_dict] from a record that [allowed] admits in
    the world it is read in; a note stays while time passes. *)
Inductive reachable (allowed : world → gmap string str → Prop) :
  world → Note.t → Prop :=
| reach_init heading category content_body w n w1 :
    Note.__init__ heading category content_body w = (Ok n, w1) →
    reachable allowed w1 n
| reach_update heading category content_body w n n1 w1 :
    reachable allowed w n →
    Note.update heading category content_body n w = (Ok n1, w1) →
    reachable allowed w1 n1
| reach_from_dict data w n w1 :
    allowed w data →
    Note.from_dict data w = (Ok n, w1) →
    reachable allowed w1 n
| reach_later w w1 n :
    reachable allowed w n → later w w1 → reachable allowed w1 n.

(** Every record is admitted. *)
Definition any_record : world → gmap string str → Prop := λ _ _, True.

(** The note read from the record has its timestamps in order, and a
    [created_at] that is not later than any reading the clock gives once the
    record is read.  Nothing is asked of how [updated_at] compares with the
    clock. *)
Definition timestamps_in_order (w : world) (data : gmap string str) : Prop :=
  ∀ (n : Note.t) (w1 : world),
    Note.from_dict data w = (Ok n, w1) →
    datetime.le (Note.created_at n) (Note.updated_at n) = true ∧
    ∀ k : nat, (ticks w1 ≤ k)%nat →
      datetime.le (Note.created_at n) (clock w1 k) = true.

(** A record has the five keys [Note.to_dict] writes. *)
Definition has_note_keys (data : gmap string str) : Prop :=
  is_Some (data !! "title") ∧ is_Some (data !! "category") ∧
  is_Some (data !! "content") ∧ is_Some (data !! "created_at") ∧
  is_Some (data !! "updated_at").

(** The category string is the value of a member of [NoteCategory]. *)
Definition valid_category (v : str) : Prop :=
  ∃ c : NoteCategory.t, NoteCategory.value c = v.

(** The timestamp string is accepted by [datetime.fromisoformat]. *)
Definition parseable (s : str) : Prop := is_Some (datetime.fromisoformat s).

(** The timestamp string is one [datetime.fromisoformat] certainly
    rejects. *)
Definition certainly_rejected (s : str) : Prop := datetime.rejected s = true.


(** The invariant of the data model as the specification words it, for
    every note the public operations can produce from any record. *)
Definition updated_never_before_created : Prop :=
  ∀ (w : world) (n : Note.t),
    monotone (clock w) → reachable any_record w n →
    datetime.le (Note.created_at n) (Note.updated_at n) = true.

(** What holds of a note in a world with a clock that never runs back: the
    timestamps are in order, and [created_at] is not ahead of any reading
    still to come. *)
Definition settled (w : world) (n : Note.t) : Prop :=
  datetime.le (Note.created_at n) (Note.updated_at n) = true ∧
  ∀ k : nat, (ticks w ≤ k)%nat →
    datetime.le (Note.created_at n) (clock w k) = true.

(** The two free texts of the note can be encoded in [utf-8]. *)
Definition encodable_note (n : Note.t) : Prop :=
  ProjectManager.utf8_encodable (Note.title n) = true ∧
  ProjectManager.utf8_encodable (Note.content n) = true.

(** The keys [Note.from_dict] reads. *)
Definition note_keys : list string :=
  ["title"; "category"; "content"; "created_at"; "updated_at"].

(** No record is admitted: the notes built by the constructor and [update]
    alone. *)
Definition no_record : world → gmap string str → Prop := λ _ _, False.

(** The reading the clock gives next is later than every reading taken so
    far. *)
Definition clock_moves_on (w : world) : Prop :=
  ∀ i : nat, (i < ticks w)%nat →
    datetime.lt (clock w i) (clock w (ticks w)) = true.

(** [updated_at] is one of the readings taken so far. *)
Definition stamped (w : world) (n : Note.t) : Prop :=
  ∃ i : nat, (i < ticks w)%nat ∧ Note.updated_at n = clock w i.


(** ** Concrete worlds, notes and records *)

(** A clock that starts on 4 November 2024 at noon and moves by one
    microsecond per reading (and stops short of the next second). *)
Definition sample_clock : nat → datetime.t := λ i,
  datetime.mk 2024 11 4 12 0 0 (N.min (N.of_nat i) 999999).

(** A first run: no reading taken, no storage file. *)
Definition first_run : world := World sample_clock 0 None.

(** The note of the specification's scenario, as the constructor builds
    it in [first_run]. *)
Definition buy_milk : Note.t :=
  Note.mk (lit "Buy milk") NoteCategory.HOME (lit "2% milk, oat milk")
    (sample_clock 0) (sample_clock 0).

(** The same note after [update(heading="Buy milk and eggs")]. *)
Definition buy_milk_and_eggs : Note.t :=
  Note.mk (lit "Buy milk and eggs") NoteCategory.HOME
    (lit "2% milk, oat milk") (sample_clock 0) (sample_clock 1).

(** A title of 60 characters. *)
Definition long_title : str := replicate 60 97.

(** A well-formed record whose title is too long. *)
Definition long_title_record : gmap string str :=
  list_to_map [
    ("title", long_title);
    ("category", lit "Работа");
    ("content", lit "text");
    ("created_at", lit "2024-11-04T12:00:00");
    ("updated_at", lit "2024-11-04T12:30:00.250000")
  ].

(** A record whose category is the value of no member. *)
Definition bad_category_record : gmap string str :=
  list_to_map [
    ("title", lit "Buy milk");
    ("category", lit "NotARealCategory");
    ("content", lit "2% milk, oat milk");
    ("created_at", lit "2024-11-04T12:00:00");
    ("updated_at", lit "2024-11-04T12:00:00")
  ].

(** A record that says it was updated five years before it was created. *)
Definition backdated_record : gmap string str :=
  list_to_map [
    ("title", lit "Buy milk");
    ("category", lit "Дом");
    ("content", lit "2% milk, oat milk");
    ("created_at", lit "2025-01-01T00:00:00");
    ("updated_at", lit "2020-01-01T00:00:00")
  ].

(** The note [from_dict] reads from [backdated_record]. *)
Definition backdated_note : Note.t :=
  Note.mk (lit "Buy milk") NoteCategory.HOME (lit "2% milk, oat milk")
    (datetime.mk 2025 1 1 0 0 0 0) (datetime.mk 2020 1 1 0 0 0 0).

(** A record created in 2020 whose last update is dated 2030, after every
    reading of [sample_clock]. *)
Definition postdated_record : gmap string str :=
  list_to_map [
    ("title", lit "Buy milk");
    ("category", lit "Дом");
    ("content", lit "2% milk, oat milk");
    ("created_at", lit "2020-01-01T00:00:00");
    ("updated_at", lit "2030-01-01T00:00:00")
  ].

(** The note [from_dict] reads from [postdated_record]. *)
Definition postdated_note : Note.t :=
  Note.mk (lit "Buy milk") NoteCategory.HOME (lit "2% milk, oat milk")
    (datetime.mk 2020 1 1 0 0 0 0) (datetime.mk 2030 1 1 0 0 0 0).

(** [postdated_note] after an [update] at the second reading of the
    clock. *)
Definition postdated_note_updated : Note.t :=
  Note.mk (lit "Buy milk") NoteCategory.HOME (lit "2% milk, oat milk")
    (datetime.mk 2020 1 1 0 0 0 0) (sample_clock 1).

(** A record created and updated at the same instant, in the year 2999. *)
Definition future_record : gmap string str :=
  list_to_map [
    ("title", lit "Buy milk");
    ("category", lit "Дом");
    ("content", lit "2% milk, oat milk");
    ("created_at", lit "2999-01-01T00:00:00");
    ("updated_at", lit "2999-01-01T00:00:00")
  ].

(** The note [from_dict] reads from [future_record]. *)
Definition future_note : Note.t :=
  Note.mk (lit "Buy milk") NoteCategory.HOME (lit "2% milk, oat milk")
    (datetime.mk 2999 1 1 0 0 0 0) (datetime.mk 2999 1 1 0 0 0 0).

(** [future_note] after an [update] at the second reading of the clock. *)
Definition future_note_updated : Note.t :=
  Note.mk (lit "Buy milk") NoteCategory.HOME (lit "2% milk, oat milk")
    (datetime.mk 2999 1 1 0 0 0 0) (sample_clock 1).

(** A note whose title is a lone surrogate, U+D800. *)
Definition surrogate_note : Note.t :=
  Note.mk [55296] NoteCategory.MISC [] (sample_clock 0) (sample_clock 0).

(** A world whose storage file holds [bad_category_record] after a good
    record. *)
Definition bad_storage : world :=
  World sample_clock 0
    (Some (Document {[ "notes" := [Note.to_dict buy_milk; bad_category_record] ]})).

(** [long_title_record] with one more key, which [from_dict] never
    looks at. *)
Definition coloured_record : gmap string str :=
  <["colour" := lit "red"]> long_title_record.

(** The note [from_dict] reads from [long_title_record]. *)
Definition long_title_note : Note.t :=
  Note.mk (replicate 50 97) NoteCategory.WORK (lit "text")
    (datetime.mk 2024 11 4 12 0 0 0) (datetime.mk 2024 11 4 12 30 0 250000).

(** A document with a good record, then a record with a bad category, then
    a record with no key at all. *)
Definition three_records : gmap string (list (gmap string str)) :=
  {[ "notes" := [Note.to_dict buy_milk] ++ bad_category_record :: [∅] ]}.

(** A world whose storage file was written by [save_project]. *)
Definition saved_storage : world :=
  World sample_clock 0
    (Some (Document (Project.to_dict (Project.mk [buy_milk; buy_milk_and_eggs])))).

(** * Properties *)

(** ** Facts about [datetime] *)
Section datetime_facts.

Import datetime.

Lemma lex_compare_refl (a : list N) : lex_compare a a = Eq.
Proof.
  induction a as [|x a IH]; simpl; [done|].
  by rewrite N.compare_refl.
Qed.

Lemma lex_compare_eq (a b : list N) : lex_compare a b = Eq → a = b.
Proof.
  revert b; induction a as [|x a IH]; intros [|y b]; simpl; try done.
  destruct (N.compare_spec x y) as [->| |]; try done.
  by intros ->%IH.
Qed.

Lemma lex_compare_lt_trans (a b c : list N) :
  lex_compare a b = Lt → lex_compare b c = Lt → lex_compare a c = Lt.
Proof.
  revert b c; induction a as [|x a IH]; intros [|y b] [|z c]; simpl; try done.
  destruct (N.compare_spec x y) as [->| |]; try done.
  - destruct (N.compare_spec y z) as [->| |]; try done. apply IH.
  - destruct (N.compare_spec y z) as [->| |]; try done.
    + intros _ _. destruct (N.compare_spec x z); [lia|done|lia].
    + intros _ _. destruct (N.compare_spec x z); [lia|done|lia].
Qed.

Lemma datetime_le_refl (a : t) : le a a = true.
Proof. unfold le. by rewrite lex_compare_refl. Qed.

Lemma datetime_le_trans (a b c : t) : le a b = true → le b c = true → le a c = true.
Proof.
  unfold le. intros Hab Hbc.
  destruct (lex_compare (timetuple a) (timetuple b)) eqn:E1; [| |done].
  - apply lex_compare_eq in E1. by rewrite E1.
  - destruct (lex_compare (timetuple b) (timetuple c)) eqn:E2; [| |done].
    + apply lex_compare_eq in E2. by rewrite <- E2, E1.
    + by rewrite (lex_compare_lt_trans _ _ _ E1 E2).
Qed.

Lemma datetime_lt_not_le (a b : t) : lt a b = true → le b a = false.
Proof.
  unfold lt, le.
  destruct (lex_compare (timetuple a) (timetuple b)) eqn:E1; try done.
  intros _.
  destruct (lex_compare (timetuple b) (timetuple a)) eqn:E2; [| |done].
  - apply lex_compare_eq in E2. rewrite E2, lex_compare_refl in E1. done.
  - pose proof (lex_compare_lt_trans _ _ _ E1 E2) as E3.
    by rewrite lex_compare_refl in E3.
Qed.

(** *** [fromisoformat] inverts [isoformat] *)

Lemma length_zero_pad (w : nat) (v : N) : length (zero_pad w v) = w.
Proof.
  revert v; induction w as [|w IH]; intros v; simpl; [done|].
  rewrite length_app, IH. simpl. lia.
Qed.

Lemma parse_digits_add (w1 w2 : nat) (acc : N) (s : str) :
  parse_digits (w1 + w2) acc s =
  '(a, r) ← parse_digits w1 acc s; parse_digits w2 a r.
Proof.
  revert acc s; induction w1 as [|w1 IH]; intros acc s; simpl; [done|].
  destruct s as [|c s]; [done|].
  destruct (is_digit c); [apply IH|done].
Qed.

Lemma parse_digits_one (acc : N) (c : char) (rest : str) :
  48 ≤ c → c ≤ 57 →
  parse_digits 1 acc (c :: rest) = Some (10 * acc + (c - 48), rest).
Proof.
  intros H1 H2. cbn [parse_digits]. unfold is_digit.
  by rewrite (proj2 (N.leb_le _ _) H1), (proj2 (N.leb_le _ _) H2).
Qed.

Lemma parse_digits_zero_pad (w : nat) (v acc : N) (rest : str) :
  v < 10 ^ N.of_nat w →
  parse_digits w acc (zero_pad w v ++ rest)
  = Some (acc * 10 ^ N.of_nat w + v, rest).
Proof.
  revert v acc rest; induction w as [|w IH]; intros v acc rest Hv.
  - cbn in *. f_equal. f_equal. lia.
  - replace (S w) with (w + 1)%nat at 1 by lia.
    rewrite parse_digits_add. cbn [zero_pad]. rewrite <- app_assoc.
    rewrite Nat2N.inj_succ, N.pow_succ_r' in *.
    generalize dependent (10 ^ N.of_nat w). intros p IH Hv.
    pose proof (N.div_mod v 10 ltac:(lia)) as Hdm.
    pose proof (N.mod_lt v 10 ltac:(lia)) as Hm.
    rewrite IH by (apply N.Div0.div_lt_upper_bound; lia).
    cbn [mbind option_bind app].
    generalize dependent (v / 10). generalize dependent (v mod 10).
    intros r Hr q Hdm.
    rewrite parse_digits_one by lia.
    f_equal. f_equal. lia.
Qed.

Lemma parse_zero_pad (w : nat) (v : N) (rest : str) :
  v < 10 ^ N.of_nat w →
  parse_digits w 0 (zero_pad w v ++ rest) = Some (v, rest).
Proof. intros Hv. by rewrite parse_digits_zero_pad. Qed.

Lemma expect_cons (c : char) (s : str) : expect c (c :: s) = Some s.
Proof. unfold expect. by rewrite N.eqb_refl. Qed.

Lemma days_in_month_le (y m : N) : days_in_month y m ≤ 31.
Proof. unfold days_in_month. repeat case_match; lia. Qed.

(** The ranges of the fields of a valid value, as the widths that
    [isoformat] prints them in. *)
Lemma valid_widths (d : t) :
  valid d = true →
  year d < 10 ^ N.of_nat 4 ∧ month d < 10 ^ N.of_nat 2 ∧
  day d < 10 ^ N.of_nat 2 ∧ hour d < 10 ^ N.of_nat 2 ∧
  minute d < 10 ^ N.of_nat 2 ∧ second d < 10 ^ N.of_nat 2 ∧
  microsecond d < 10 ^ N.of_nat 6.
Proof.
  unfold valid. rewrite !andb_true_iff, !N.leb_le, !N.ltb_lt.
  pose proof (days_in_month_le (year d) (month d)).
  change (10 ^ N.of_nat 4) with 10000.
  change (10 ^ N.of_nat 2) with 100.
  change (10 ^ N.of_nat 6) with 1000000.
  lia.
Qed.

Lemma parse_fraction_zero_pad (us : N) :
  us < 10 ^ N.of_nat 6 → parse_fraction (zero_pad 6 us) = Some us.
Proof.
  intros Hus. unfold parse_fraction. rewrite length_zero_pad.
  rewrite <- (app_nil_r (zero_pad 6 us)), parse_zero_pad by done.
  done.
Qed.

(** Rewrites one step of a parse of [isoformat]'s output. *)
Ltac parse_step :=
  first
    [ rewrite parse_zero_pad by assumption
    | rewrite expect_cons
    | progress cbn [mbind option_bind app] ].

Lemma fromisoformat_isoformat (d : t) :
  valid d = true → fromisoformat (isoformat d) = Some d.
Proof.
  intros Hv.
  destruct (valid_widths d Hv) as (Hy & Hm & Hd & Hh & Hmi & Hs & Hus).
  destruct d as [y m dd hh mi ss us].
  cbn [year month day hour minute second microsecond] in *.
  unfold fromisoformat, isoformat, parse_date, parse_time.
  cbn [year month day hour minute second microsecond].
  repeat parse_step.
  destruct (N.eqb_spec us 0) as [->|Hne].
  - repeat parse_step. by rewrite Hv.
  - repeat parse_step. rewrite parse_fraction_zero_pad by done.
    repeat parse_step. by rewrite Hv.
Qed.

(** *** What [rejected] rejects, [fromisoformat] does not read *)

Lemma parse_digits_length (w : nat) (acc v : N) (s r : str) :
  parse_digits w acc s = Some (v, r) → length s = (w + length r)%nat.
Proof.
  revert acc s; induction w as [|w IH]; intros acc s; cbn [parse_digits].
  - by intros [= _ ->].
  - destruct s as [|c s]; [discriminate|].
    destruct (is_digit c); [|discriminate].
    intros H%IH. cbn. lia.
Qed.

Lemma expect_length (c : char) (s r : str) :
  expect c s = Some r → length s = S (length r).
Proof.
  unfold expect. destruct s as [|c1 s]; [discriminate|].
  destruct (c1 =? c); [|discriminate]. by intros [= ->].
Qed.

Lemma parse_date_Some (s : str) (y m d : N) (rest : str) :
  parse_date s = Some (y, m, d, rest) →
  (∃ r, parse_digits 4 0 s = Some (y, r)) ∧ (10 ≤ length s)%nat.
Proof.
  unfold parse_date.
  destruct (parse_digits 4 0 s) as [[y1 s1]|] eqn:H1; [|discriminate].
  cbn [mbind option_bind].
  destruct (expect HYPHEN s1) as [s2|] eqn:H2; [|discriminate].
  cbn [mbind option_bind].
  destruct (parse_digits 2 0 s2) as [[m1 s3]|] eqn:H3; [|discriminate].
  cbn [mbind option_bind].
  destruct (expect HYPHEN s3) as [s4|] eqn:H4; [|discriminate].
  cbn [mbind option_bind].
  destruct (parse_digits 2 0 s4) as [[d1 s5]|] eqn:H5; [|discriminate].
  cbn [mbind option_bind]. intros [= <- _ _ _].
  apply parse_digits_length in H1, H3, H5. apply expect_length in H2, H4.
  split; [by eexists|lia].
Qed.

Lemma fromisoformat_scan (s : str) :
  fromisoformat s = r ← scan s; if valid r then Some r else None.
Proof.
  unfold fromisoformat, scan.
  destruct (parse_date s) as [[[[y m] d] rest]|]; [|reflexivity].
  cbn [mbind option_bind].
  destruct (match rest with [] => Some (0, 0, 0, 0) | _ :: tstr => _ end)
    as [[[[hh mi] ss] us]|]; reflexivity.
Qed.

Lemma scan_Some (s : str) (r : t) :
  scan s = Some r →
  (∃ y rest, parse_digits 4 0 s = Some (y, rest)) ∧ (10 ≤ length s)%nat.
Proof.
  unfold scan.
  destruct (parse_date s) as [[[[y m] d] rest]|] eqn:Hd; [|discriminate].
  intros _. destruct (parse_date_Some _ _ _ _ _ Hd) as [[r1 H1] Hlen].
  split; [by eexists _, _|exact Hlen].
Qed.

Lemma rejected_not_parsed (s : str) :
  rejected s = true → fromisoformat s = None.
Proof.
  unfold rejected. rewrite fromisoformat_scan.
  destruct (scan s) as [r|] eqn:Hs; [|reflexivity].
  destruct (scan_Some _ _ Hs) as [(y & rest & Hy) Hlen]. rewrite Hy.
  rewrite (proj2 (Nat.ltb_ge _ _)) by lia.
  cbn [orb mbind option_bind].
  destruct (valid r); [discriminate|reflexivity].
Qed.

End datetime_facts.

(** ** Facts about [NoteCategory] *)
Section category_facts.

Lemma by_value_value (c : NoteCategory.t) :
  NoteCategory.by_value (NoteCategory.value c) = Some c.
Proof. destruct c; vm_compute; reflexivity. Qed.

Lemma by_value_Some (v : str) (c : NoteCategory.t) :
  NoteCategory.by_value v = Some c → NoteCategory.value c = v.
Proof.
  unfold NoteCategory.by_value. intros [_ H]%find_some.
  by apply bool_decide_eq_true in H.
Qed.

Lemma by_value_valid (v : str) :
  is_Some (NoteCategory.by_value v) ↔ valid_category v.
Proof.
  split.
  - intros [c Hc]. exists c. by apply by_value_Some.
  - intros [c <-]. rewrite by_value_value. by eexists.
Qed.

Lemma by_value_None (v : str) :
  NoteCategory.by_value v = None ↔ ¬ valid_category v.
Proof. rewrite <- by_value_valid, eq_None_not_Some. done. Qed.

End category_facts.

(** ** Facts about [Note] *)
Section note_facts.

Lemma init_run (heading : str) (c : NoteCategory.t) (body : str) (w : world) :
  Note.__init__ heading c body w
  = (Ok (Note.mk (take 50 heading) c body
           (clock w (ticks w)) (clock w (ticks w))), advance w).
Proof. reflexivity. Qed.

(** What [update] does to each field. *)
Lemma update_run (heading : option str) (c : option NoteCategory.t)
    (body : option str) (n : Note.t) (w : world) :
  Note.update heading c body n w
  = (Ok (Note.mk
           (match heading with
            | Some h => if str_truthy h then take 50 h else Note.title n
            | None => Note.title n
            end)
           (default (Note.category n) c)
           (match body with
            | Some b => if str_truthy b then b else Note.content n
            | None => Note.content n
            end)
           (Note.created_at n)
           (clock w (ticks w))), advance w).
Proof.
  destruct heading as [[|x h]|], c as [c|], body as [[|y b]|]; reflexivity.
Qed.

Lemma length_take_50 (s : str) : (length (take 50 s) ≤ 50)%nat.
Proof. rewrite length_take. lia. Qed.

End note_facts.

(** ** The claims about [Note.__init__] and [Note.update] *)
Section note_claims.

(** C3.  A title of more than 50 characters is cut to its first 50, by the
    constructor and by [update] alike, and neither raises. *)
Theorem C3_title_truncated (t : str) (c : NoteCategory.t) (body : str)
    (w : world) :
  (length t > 50)%nat →
  (∃ n w1, Note.__init__ t c body w = (Ok n, w1) ∧ Note.title n = take 50 t) ∧
  (∀ (n0 : Note.t) (c1 : option NoteCategory.t) (body1 : option str),
     ∃ n1 w1, Note.update (Some t) c1 body1 n0 w = (Ok n1, w1) ∧
              Note.title n1 = take 50 t).
Proof.
  intros Hlen. split.
  - eexists _, _. split; [apply init_run|done].
  - intros n0 c1 body1. eexists _, _. split; [apply update_run|].
    destruct t; [simpl in Hlen; lia|done].
Qed.

(** C6.  [update] leaves alone every field whose argument is absent or
    empty, and never touches [created_at]. *)
Theorem C6_update_frame (heading : option str) (c : option NoteCategory.t)
    (body : option str) (n : Note.t) (w : world) :
  ∃ n1 w1, Note.update heading c body n w = (Ok n1, w1) ∧
    (heading = None ∨ heading = Some [] → Note.title n1 = Note.title n) ∧
    (c = None → Note.category n1 = Note.category n) ∧
    (body = None ∨ body = Some [] → Note.content n1 = Note.content n) ∧
    Note.created_at n1 = Note.created_at n.
Proof.
  eexists _, _. split; [apply update_run|]. cbn.
  repeat split.
  - by intros [->| ->].
  - by intros ->.
  - by intros [->| ->].
Qed.

(** C7.  Every [update] sets [updated_at] to the current reading of the
    clock; with every argument absent nothing else changes. *)
Theorem C7_update_touches (n : Note.t) (w : world) :
  (∀ heading c body, ∃ n1 w1,
     Note.update heading c body n w = (Ok n1, w1) ∧
     Note.updated_at n1 = clock w (ticks w)) ∧
  Note.update None None None n w
  = (Ok (Note.with_updated_at (clock w (ticks w)) n), advance w).
Proof.
  split; [|done].
  intros heading c body. eexists _, _. split; [apply update_run|done].
Qed.

End note_claims.

(** ** Facts about [Note.from_dict] *)
Section from_dict_facts.

(** Unfolds the monad in a run of [from_dict], without computing on the
    keys. *)
Ltac run_from_dict :=
  unfold Note.from_dict, Note.__init__, getitem, NoteCategory.call,
    datetime_fromisoformat, datetime_now, mbind, M_bind, mret, M_ret, raise,
    beyond;
  cbv beta iota.

(** On a record with the five keys, [from_dict] is decided by the category
    lookup and the two parses. *)
Lemma from_dict_run (data : gmap string str) (w : world)
    (h cv b ct ut : str) :
  data !! "title" = Some h → data !! "category" = Some cv →
  data !! "content" = Some b → data !! "created_at" = Some ct →
  data !! "updated_at" = Some ut →
  Note.from_dict data w =
    match NoteCategory.by_value cv with
    | None => (Raise ValueError, w)
    | Some c =>
        match datetime.fromisoformat ct with
        | None =>
            (if datetime.rejected ct then Raise ValueError else Beyond,
             advance w)
        | Some created =>
            match datetime.fromisoformat ut with
            | None =>
                (if datetime.rejected ut then Raise ValueError else Beyond,
                 advance w)
            | Some updated =>
                (Ok (Note.mk (take 50 h) c b created updated), advance w)
            end
        end
    end.
Proof.
  intros Hh Hcv Hb Hct Hut. run_from_dict.
  rewrite Hh, Hcv, Hb, Hct, Hut.
  destruct (NoteCategory.by_value cv) as [c|]; [|reflexivity].
  destruct (datetime.fromisoformat ct) as [created|];
    [|destruct (datetime.rejected ct); reflexivity].
  destruct (datetime.fromisoformat ut) as [updated|];
    [|destruct (datetime.rejected ut); reflexivity].
  reflexivity.
Qed.

(** A note that [from_dict] returns is the record's, whatever the clock
    shows: both timestamps of the constructor are overwritten. *)
Lemma from_dict_Ok (data : gmap string str) (w w1 : world) (n : Note.t) :
  Note.from_dict data w = (Ok n, w1) →
  ∃ h cv b ct ut,
    data !! "title" = Some h ∧ data !! "category" = Some cv ∧
    data !! "content" = Some b ∧ data !! "created_at" = Some ct ∧
    data !! "updated_at" = Some ut ∧
    NoteCategory.by_value cv = Some (Note.category n) ∧
    datetime.fromisoformat ct = Some (Note.created_at n) ∧
    datetime.fromisoformat ut = Some (Note.updated_at n) ∧
    Note.title n = take 50 h ∧ Note.content n = b ∧ w1 = advance w.
Proof.
  run_from_dict.
  destruct (data !! "title") as [h|]; [|discriminate].
  destruct (data !! "category") as [cv|]; [|discriminate].
  destruct (NoteCategory.by_value cv) as [c|] eqn:Hc; [|discriminate].
  destruct (data !! "content") as [b|]; [|discriminate].
  destruct (data !! "created_at") as [ct|]; [|discriminate].
  destruct (datetime.fromisoformat ct) as [created|] eqn:Hcr;
    [|destruct (datetime.rejected ct); discriminate].
  destruct (data !! "updated_at") as [ut|]; [|discriminate].
  destruct (datetime.fromisoformat ut) as [updated|] eqn:Hup;
    [|destruct (datetime.rejected ut); discriminate].
  intros [= <- <-]. exists h, cv, b, ct, ut.
  repeat split; first [assumption | reflexivity].
Qed.

(** Whether [from_dict] raises, and the note it returns, do not depend on
    the world. *)
Lemma from_dict_outcome (data : gmap string str) (w w1 : world) :
  outcome (Note.from_dict data) w = outcome (Note.from_dict data) w1.
Proof.
  unfold outcome. run_from_dict.
  destruct (data !! "title") as [h|]; [|reflexivity].
  destruct (data !! "category") as [cv|]; [|reflexivity].
  destruct (NoteCategory.by_value cv) as [c|]; [|reflexivity].
  destruct (data !! "content") as [b|]; [|reflexivity].
  destruct (data !! "created_at") as [ct|]; [|reflexivity].
  destruct (datetime.fromisoformat ct) as [created|];
    [|destruct (datetime.rejected ct); reflexivity].
  destruct (data !! "updated_at") as [ut|]; [|reflexivity].
  destruct (datetime.fromisoformat ut) as [updated|];
    [|destruct (datetime.rejected ut); reflexivity].
  reflexivity.
Qed.

Lemma to_dict_keys (n : Note.t) :
  Note.to_dict n !! "title" = Some (Note.title n) ∧
  Note.to_dict n !! "category" = Some (NoteCategory.value (Note.category n)) ∧
  Note.to_dict n !! "content" = Some (Note.content n) ∧
  Note.to_dict n !! "created_at"
    = Some (datetime.isoformat (Note.created_at n)) ∧
  Note.to_dict n !! "updated_at"
    = Some (datetime.isoformat (Note.updated_at n)).
Proof.
  unfold Note.to_dict.
  generalize (NoteCategory.value (Note.category n)),
    (datetime.isoformat (Note.created_at n)),
    (datetime.isoformat (Note.updated_at n)).
  intros cv ct ut. repeat split; vm_compute; reflexivity.
Qed.

(** [from_dict] inverts [to_dict] on the notes of the data model. *)
Lemma from_dict_to_dict (n : Note.t) (w : world) :
  Note.invariant n →
  Note.from_dict (Note.to_dict n) w = (Ok n, advance w).
Proof.
  intros (Hlen & Hc & Hu).
  destruct (to_dict_keys n) as (H1 & H2 & H3 & H4 & H5).
  rewrite (from_dict_run _ _ _ _ _ _ _ H1 H2 H3 H4 H5).
  rewrite by_value_value, !fromisoformat_isoformat by assumption.
  rewrite take_ge by assumption. destruct n; reflexivity.
Qed.

(** The notes [from_dict] returns satisfy the title bound. *)
Lemma from_dict_title_bound (data : gmap string str) (w w1 : world)
    (n : Note.t) :
  Note.from_dict data w = (Ok n, w1) → (length (Note.title n) ≤ 50)%nat.
Proof.
  intros (h & ? & ? & ? & ? & _ & _ & _ & _ & _ & _ & _ & _ & -> & _)%from_dict_Ok.
  apply length_take_50.
Qed.

End from_dict_facts.

(** ** Facts about list comprehensions *)
Section comprehension_facts.

Context {A B : Type} (f : A → M B).

Lemma comprehension_Ok (l : list A) (w w1 : world) (ys : list B) :
  comprehension f l w = (Ok ys, w1) →
  Forall2 (λ x y, ∃ u u1, f x u = (Ok y, u1)) l ys.
Proof.
  revert w w1 ys; induction l as [|x l IH]; intros w w1 ys; cbn.
  - intros [= <- _]. constructor.
  - unfold mbind, M_bind, mret, M_ret.
    destruct (f x w) as [[y|e|] u1] eqn:Hx; [|done|done].
    destruct (comprehension f l u1) as [[ys1|e|] u2] eqn:Hl; [|done|done].
    intros [= <- _]. constructor; [by eexists _, _|by eapply IH].
Qed.


End comprehension_facts.

Lemma comprehension_cons {A B : Type} (f : A → M B) (x : A) (l : list A)
    (w : world) :
  comprehension f (x :: l) w =
    match f x w with
    | (Ok y, u) =>
        match comprehension f l u with
        | (Ok ys, u1) => (Ok (y :: ys), u1)
        | (Raise e, u1) => (Raise e, u1)
        | (Beyond, u1) => (Beyond, u1)
        end
    | (Raise e, u) => (Raise e, u)
    | (Beyond, u) => (Beyond, u)
    end.
Proof.
  cbn. unfold mbind, M_bind, mret, M_ret.
  destruct (f x w) as [[y|e|] u]; [|reflexivity|reflexivity].
  destruct (comprehension f l u) as [[ys|e|] u1]; reflexivity.
Qed.

(** The first element on which [f] raises ends the comprehension with
    that exception. *)
Lemma comprehension_first_error {A B : Type} (f : A → M B)
    (good rest : list A) (bad : A) (e : exn) (w : world) :
  Forall (λ d, ∃ n, ∀ u, outcome (f d) u = Ok n) good →
  (∀ u, outcome (f bad) u = Raise e) →
  outcome (comprehension f (good ++ bad :: rest)) w = Raise e.
Proof.
  intros Hgood Hbad. revert w.
  induction Hgood as [|d good [n Hd] _ IH]; intros w; unfold outcome;
    cbn [app]; rewrite comprehension_cons.
  - specialize (Hbad w). unfold outcome in Hbad.
    destruct (f bad w) as [[n|e1|] u]; cbn in Hbad;
      [discriminate|cbn; congruence|discriminate].
  - specialize (Hd w). unfold outcome in Hd.
    destruct (f d w) as [[n1|e1|] u]; cbn in Hd; [|discriminate|discriminate].
    specialize (IH u). unfold outcome in IH.
    destruct (comprehension f (good ++ bad :: rest) u)
      as [[ns|e1|] u1]; cbn in IH; [discriminate|cbn; congruence|discriminate].
Qed.

(** ** Facts about [Project] and [ProjectManager] *)
Section project_facts.

Lemma comprehension_from_dict_to_dict (l : list Note.t) (w : world) :
  Forall Note.invariant l →
  ∃ w1, comprehension Note.from_dict (Note.to_dict <$> l) w = (Ok l, w1).
Proof.
  intros Hl. revert w. induction Hl as [|n l Hn _ IH]; intros w.
  - by exists w.
  - rewrite fmap_cons, comprehension_cons, from_dict_to_dict by assumption.
    destruct (IH (advance w)) as [w1 ->]. by exists w1.
Qed.

Lemma project_from_dict_run (data : gmap string (list (gmap string str)))
    (notes : list (gmap string str)) (w : world) :
  data !! "notes" = Some notes →
  Project.from_dict data w =
    match comprehension Note.from_dict notes w with
    | (Ok l, u) => (Ok (Project.mk l), u)
    | (Raise e, u) => (Raise e, u)
    | (Beyond, u) => (Beyond, u)
    end.
Proof.
  intros Hn. unfold Project.from_dict, getitem, mbind, M_bind, mret, M_ret.
  cbv beta iota. rewrite Hn.
  destruct (comprehension Note.from_dict notes w) as [[l|e|] u]; reflexivity.
Qed.

Lemma load_project_missing (w : world) :
  storage w = None →
  ProjectManager.load_project w = (Ok Project.__init__, w).
Proof.
  intros Hs. unfold ProjectManager.load_project, ProjectManager.path_exists.
  unfold mbind, M_bind, mret, M_ret. cbv beta iota. rewrite Hs.
  reflexivity.
Qed.

Lemma load_project_document (w : world)
    (data : gmap string (list (gmap string str))) :
  storage w = Some (Document data) →
  ProjectManager.load_project w = Project.from_dict data w.
Proof.
  intros Hs.
  unfold ProjectManager.load_project, ProjectManager.path_exists,
    ProjectManager.json_load.
  unfold mbind, M_bind, mret, M_ret. cbv beta iota. rewrite Hs.
  rewrite bool_decide_eq_true_2 by (by eexists).
  cbv beta iota. rewrite Hs.
  destruct (Project.from_dict data w) as [[p|e|] u]; reflexivity.
Qed.

(** A project that [load_project] returns was read from a document, note
    by note, or is the empty project of a first run. *)
Lemma load_project_Ok (w : world) (p : Project.t) :
  outcome ProjectManager.load_project w = Ok p →
  Forall (λ n, ∃ data u u1, Note.from_dict data u = (Ok n, u1))
    (Project.memo_collection p).
Proof.
  unfold outcome. destruct (storage w) as [[data|]|] eqn:Hs.
  - rewrite (load_project_document _ _ Hs).
    unfold Project.from_dict, getitem, mbind, M_bind, mret, M_ret.
    cbv beta iota. destruct (data !! "notes") as [notes|]; [|discriminate].
    destruct (comprehension Note.from_dict notes w) as [[l|e|] u] eqn:Hl;
      [|discriminate|discriminate].
    intros [= <-]. apply comprehension_Ok in Hl.
    apply Forall_lookup. intros i n Hi.
    destruct (Forall2_lookup_r _ _ _ _ _ Hl Hi) as (x & _ & u0 & u1 & Hx).
    by exists x, u0, u1.
  - unfold ProjectManager.load_project, ProjectManager.path_exists,
      ProjectManager.json_load.
    unfold mbind, M_bind, mret, M_ret. cbv beta iota. rewrite Hs.
    rewrite bool_decide_eq_true_2 by (by eexists).
    cbv beta iota. rewrite Hs. discriminate.
  - rewrite (load_project_missing _ Hs). intros [= <-]. constructor.
Qed.

End project_facts.

(** ** The claims about serialization *)
Section serialization_claims.

(** C1.  Round trip: deserializing the serialization of a project gives the
    project back, note for note and field for field.  The notes are those of
    the data model ([Note.invariant]): a title within the limit the class
    documents and that every operation of the class enforces, and two
    [datetime] values. *)
Theorem C1_project_round_trip (p : Project.t) (w : world) :
  Forall Note.invariant (Project.memo_collection p) →
  outcome (Project.from_dict (Project.to_dict p)) w = Ok p.
Proof.
  intros Hp. unfold outcome, Project.to_dict.
  rewrite (project_from_dict_run _ _ _ (lookup_singleton_eq _ _)).
  destruct (comprehension_from_dict_to_dict _ w Hp) as [w1 ->].
  by destruct p.
Qed.


(** C10.  Deserialization cuts the title again: a record whose title is
    longer than 50 characters is read, with the first 50 characters as the
    title, and every note of a loaded project has a title within the
    limit. *)
Theorem C10_from_dict_truncates (data : gmap string str) (w : world)
    (h cv b ct ut : str) :
  data !! "title" = Some h → data !! "category" = Some cv →
  data !! "content" = Some b → data !! "created_at" = Some ct →
  data !! "updated_at" = Some ut →
  valid_category cv → parseable ct → parseable ut →
  (length h > 50)%nat →
  (∃ n w1, Note.from_dict data w = (Ok n, w1) ∧
           Note.title n = take 50 h ∧ length (Note.title n) = 50%nat) ∧
  (∀ u p, outcome ProjectManager.load_project u = Ok p →
          Forall (λ n, (length (Note.title n) ≤ 50)%nat)
            (Project.memo_collection p)).
Proof.
  intros Hh Hcv Hb Hct Hut [c Hc]%by_value_valid [created Hcr] [updated Hup]
    Hlen.
  split.
  - rewrite (from_dict_run _ _ _ _ _ _ _ Hh Hcv Hb Hct Hut), Hc, Hcr, Hup.
    eexists _, _. split; [reflexivity|]. cbn [Note.title].
    split; [reflexivity|]. rewrite length_take. lia.
  - intros u p Hp%load_project_Ok.
    eapply Forall_impl; [exact Hp|].
    intros n (d & u0 & u1 & Hn). by eapply from_dict_title_bound.
Qed.

End serialization_claims.

(** ** The claims about [Project] and [ProjectManager] *)
Section project_claims.

(** C5.  [remove_note_by_index] with an index in range removes the element
    at that position: the earlier elements stay, the later ones move down by
    one.  With any other index the project is unchanged, and nothing is
    raised (the function is total). *)
Theorem C5_remove_note_by_index (p : Project.t) (index : Z) :
  let l := Project.memo_collection p in
  let l1 := Project.memo_collection (Project.remove_note_by_index index p) in
  ((0 ≤ index < Z.of_nat (length l))%Z →
     l1 = take (Z.to_nat index) l ++ drop (S (Z.to_nat index)) l ∧
     length l1 = (length l - 1)%nat ∧
     (∀ j : nat, (j < Z.to_nat index)%nat → l1 !! j = l !! j) ∧
     (∀ j : nat, (Z.to_nat index ≤ j)%nat → l1 !! j = l !! S j)) ∧
  ((index < 0 ∨ Z.of_nat (length l) ≤ index)%Z →
     Project.remove_note_by_index index p = p).
Proof.
  intros l l1. subst l l1. unfold Project.remove_note_by_index. split.
  - intros [H0 Hlt].
    rewrite !bool_decide_eq_true_2 by assumption.
    cbn [andb Project.with_memo_collection Project.memo_collection].
    repeat split.
    + apply delete_take_drop.
    + apply length_delete, lookup_lt_is_Some. lia.
    + intros j Hj. by apply list_lookup_delete_lt.
    + intros j Hj. by apply list_lookup_delete_ge.
  - intros [Hneg|Hge].
    + rewrite (bool_decide_eq_false_2 (0 ≤ index)%Z) by lia. reflexivity.
    + rewrite (bool_decide_eq_false_2 (index < _)%Z) by lia.
      by rewrite andb_false_r.
Qed.

(** C9.  [add_note] appends: one element more, the new note last, the
    earlier elements where they were.  It is total and checks nothing, so
    the same note can be added twice. *)
Theorem C9_add_note_appends (p : Project.t) (n : Note.t) :
  let l := Project.memo_collection p in
  let l1 := Project.memo_collection (Project.add_note n p) in
  length l1 = S (length l) ∧
  last l1 = Some n ∧
  l1 !! length l = Some n ∧
  (∀ j : nat, (j < length l)%nat → l1 !! j = l !! j) ∧
  Project.memo_collection (Project.add_note n (Project.add_note n p))
  = l ++ [n; n].
Proof.
  intros l l1. subst l l1. unfold Project.add_note.
  cbn [Project.with_memo_collection Project.memo_collection].
  repeat split.
  - rewrite length_app. cbn. lia.
  - apply last_snoc.
  - by rewrite lookup_app_r, Nat.sub_diag.
  - intros j Hj. by apply lookup_app_l.
  - by rewrite <- app_assoc.
Qed.

(** C8.  Without a storage file [load_project] returns the empty project
    and does not raise. *)
Theorem C8_load_without_file (w : world) :
  storage w = None →
  ∃ p, ProjectManager.load_project w = (Ok p, w) ∧
       length (Project.memo_collection p) = 0%nat.
Proof.
  intros Hs. exists Project.__init__. split; [|reflexivity].
  by apply load_project_missing.
Qed.

End project_claims.

(** ** The claim about the order of the two timestamps *)
Section timestamp_claims.

Lemma reachable_settled (w : world) (n : Note.t) :
  reachable timestamps_in_order w n → monotone (clock w) → settled w n.
Proof.
  induction 1 as [h c b w n w1 Hrun|h c b w n n1 w1 _ IH Hrun
                 |data w n w1 Hok Hrun|w w1 n _ IH [Hclk Hticks]];
    intros Hmono.
  - rewrite init_run in Hrun. injection Hrun as <- <-. split.
    + apply datetime_le_refl.
    + intros k Hk. apply Hmono. cbn in Hk. lia.
  - rewrite update_run in Hrun. injection Hrun as <- <-.
    destruct (IH Hmono) as [_ Hnow]. split.
    + apply Hnow. lia.
    + intros k Hk. apply Hnow. cbn in Hk. lia.
  - exact (Hok n w1 Hrun).
  - rewrite Hclk in Hmono. destruct (IH Hmono) as [Hcu Hnow].
    split; [exact Hcu|]. intros k Hk. rewrite Hclk. apply Hnow. lia.
Qed.

(** C2, amended.  With a clock that never runs back, [updated_at] is not
    before [created_at] for every note built by the constructor, changed by
    any sequence of [update] calls, or read from a record whose
    [updated_at] is not before its [created_at] and whose [created_at] is
    not ahead of the clock. *)
Theorem C2_updated_not_before_created (w : world) (n : Note.t) :
  monotone (clock w) → reachable timestamps_in_order w n →
  datetime.le (Note.created_at n) (Note.updated_at n) = true.
Proof. intros Hmono Hn. by destruct (reachable_settled w n Hn Hmono). Qed.

End timestamp_claims.

(** ** The claims at concrete inputs *)
Section instances.

Lemma sample_clock_monotone : monotone sample_clock.
Proof.
  intros i j Hij. unfold datetime.le, sample_clock, datetime.timetuple.
  cbn [datetime.year datetime.month datetime.day datetime.hour
       datetime.minute datetime.second datetime.microsecond
       datetime.lex_compare].
  rewrite !N.compare_refl.
  destruct (N.compare_spec (N.min (N.of_nat i) 999999)
                           (N.min (N.of_nat j) 999999)); [done|done|lia].
Qed.

Lemma buy_milk_invariant : Note.invariant buy_milk.
Proof. split; [vm_compute; lia|split; vm_compute; reflexivity]. Qed.

Lemma buy_milk_and_eggs_invariant : Note.invariant buy_milk_and_eggs.
Proof. split; [vm_compute; lia|split; vm_compute; reflexivity]. Qed.

(** The scenario of the specification: construct, then update the title. *)
Lemma buy_milk_and_eggs_reachable :
  reachable timestamps_in_order (advance (advance first_run))
    buy_milk_and_eggs.
Proof.
  apply (reach_update _ (Some (lit "Buy milk and eggs")) None None
           (advance first_run) buy_milk).
  - apply (reach_init _ (lit "Buy milk") NoteCategory.HOME
             (lit "2% milk, oat milk") first_run).
    rewrite init_run. reflexivity.
  - rewrite update_run. reflexivity.
Qed.

Lemma backdated_record_run :
  Note.from_dict backdated_record first_run
  = (Ok backdated_note, advance first_run).
Proof.
  rewrite (from_dict_run backdated_record first_run
             (lit "Buy milk") (lit "Дом") (lit "2% milk, oat milk")
             (lit "2025-01-01T00:00:00") (lit "2020-01-01T00:00:00"))
    by (vm_compute; reflexivity).
  replace (NoteCategory.by_value (lit "Дом")) with (Some NoteCategory.HOME)
    by (vm_compute; reflexivity).
  replace (datetime.fromisoformat (lit "2025-01-01T00:00:00"))
    with (Some (datetime.mk 2025 1 1 0 0 0 0)) by (vm_compute; reflexivity).
  replace (datetime.fromisoformat (lit "2020-01-01T00:00:00"))
    with (Some (datetime.mk 2020 1 1 0 0 0 0)) by (vm_compute; reflexivity).
  reflexivity.
Qed.

Lemma backdated_note_reachable :
  reachable any_record (advance first_run) backdated_note.
Proof.
  apply (reach_from_dict _ backdated_record first_run); [exact I|].
  exact backdated_record_run.
Qed.

Lemma postdated_record_run :
  Note.from_dict postdated_record first_run
  = (Ok postdated_note, advance first_run).
Proof.
  rewrite (from_dict_run postdated_record first_run
             (lit "Buy milk") (lit "Дом") (lit "2% milk, oat milk")
             (lit "2020-01-01T00:00:00") (lit "2030-01-01T00:00:00"))
    by (vm_compute; reflexivity).
  replace (NoteCategory.by_value (lit "Дом")) with (Some NoteCategory.HOME)
    by (vm_compute; reflexivity).
  replace (datetime.fromisoformat (lit "2020-01-01T00:00:00"))
    with (Some (datetime.mk 2020 1 1 0 0 0 0)) by (vm_compute; reflexivity).
  replace (datetime.fromisoformat (lit "2030-01-01T00:00:00"))
    with (Some (datetime.mk 2030 1 1 0 0 0 0)) by (vm_compute; reflexivity).
  reflexivity.
Qed.

(** [postdated_record] is admitted: 2020 is before 2030, and before every
    reading of [sample_clock]. *)
Lemma postdated_record_in_order :
  timestamps_in_order first_run postdated_record.
Proof.
  intros n w1. rewrite postdated_record_run. intros [= <- <-].
  split; [vm_compute; reflexivity|]. intros k _. reflexivity.
Qed.

Lemma postdated_note_updated_reachable :
  reachable timestamps_in_order (advance (advance first_run))
    postdated_note_updated.
Proof.
  apply (reach_update _ None None None (advance first_run) postdated_note).
  - apply (reach_from_dict _ postdated_record first_run);
      [exact postdated_record_in_order|exact postdated_record_run].
  - rewrite update_run. reflexivity.
Qed.

Lemma future_record_run :
  Note.from_dict future_record first_run
  = (Ok future_note, advance first_run).
Proof.
  rewrite (from_dict_run future_record first_run
             (lit "Buy milk") (lit "Дом") (lit "2% milk, oat milk")
             (lit "2999-01-01T00:00:00") (lit "2999-01-01T00:00:00"))
    by (vm_compute; reflexivity).
  replace (NoteCategory.by_value (lit "Дом")) with (Some NoteCategory.HOME)
    by (vm_compute; reflexivity).
  replace (datetime.fromisoformat (lit "2999-01-01T00:00:00"))
    with (Some (datetime.mk 2999 1 1 0 0 0 0)) by (vm_compute; reflexivity).
  reflexivity.
Qed.

Lemma future_note_updated_reachable :
  reachable any_record (advance (advance first_run)) future_note_updated.
Proof.
  apply (reach_update _ None None None (advance first_run) future_note).
  - apply (reach_from_dict _ future_record first_run);
      [exact I|exact future_record_run].
  - rewrite update_run. reflexivity.
Qed.


(** C1 at a project of two notes. *)
Lemma C1_witness :
  Forall Note.invariant [buy_milk; buy_milk_and_eggs] ∧
  outcome (Project.from_dict
             (Project.to_dict (Project.mk [buy_milk; buy_milk_and_eggs])))
    first_run
  = Ok (Project.mk [buy_milk; buy_milk_and_eggs]).
Proof.
  assert (H : Forall Note.invariant [buy_milk; buy_milk_and_eggs]).
  { constructor; [exact buy_milk_invariant|].
    constructor; [exact buy_milk_and_eggs_invariant|].
    constructor. }
  split; [exact H|].
  exact (C1_project_round_trip (Project.mk [buy_milk; buy_milk_and_eggs])
           first_run H).
Defined.

(** C2 at a note read from a record, then updated: the record was created
    in 2020 and says it was last updated in 2030. *)
Lemma C2_witness :
  monotone (clock (advance (advance first_run))) ∧
  reachable timestamps_in_order (advance (advance first_run))
    postdated_note_updated ∧
  datetime.le (Note.created_at postdated_note_updated)
    (Note.updated_at postdated_note_updated) = true.
Proof.
  split; [exact sample_clock_monotone|].
  split; [exact postdated_note_updated_reachable|].
  exact (C2_updated_not_before_created (advance (advance first_run))
           postdated_note_updated sample_clock_monotone
           postdated_note_updated_reachable).
Defined.

(** C2 as the specification states it fails, in two ways.  [from_dict]
    reads [backdated_record] without complaint, and the note it returns was
    updated five years before it was created.  And [future_record], whose
    two timestamps are equal, gives a note that the next [update] stamps
    with a reading of the clock that lies before its [created_at]. *)
Lemma C2_counterexample :
  monotone (clock (advance first_run)) ∧
  reachable any_record (advance first_run) backdated_note ∧
  datetime.lt (Note.updated_at backdated_note)
    (Note.created_at backdated_note) = true ∧
  reachable any_record (advance (advance first_run)) future_note_updated ∧
  datetime.lt (Note.updated_at future_note_updated)
    (Note.created_at future_note_updated) = true ∧
  ¬ timestamps_in_order first_run backdated_record ∧
  ¬ timestamps_in_order first_run future_record ∧
  ¬ updated_never_before_created.
Proof.
  split; [exact sample_clock_monotone|].
  split; [exact backdated_note_reachable|].
  split; [vm_compute; reflexivity|].
  split; [exact future_note_updated_reachable|].
  split; [vm_compute; reflexivity|].
  split; [|split].
  - intros H.
    destruct (H backdated_note (advance first_run) backdated_record_run)
      as [Hcu _].
    vm_compute in Hcu. discriminate Hcu.
  - intros H.
    destruct (H future_note (advance first_run) future_record_run)
      as [_ Hnow].
    specialize (Hnow 1%nat ltac:(cbn; lia)).
    vm_compute in Hnow. discriminate Hnow.
  - intros H.
    specialize (H (advance first_run) backdated_note sample_clock_monotone
                  backdated_note_reachable).
    vm_compute in H. discriminate H.
Qed.

(** C3 at a title of 60 characters. *)
Lemma C3_witness :
  (length long_title > 50)%nat ∧
  (∃ n w1, Note.__init__ long_title NoteCategory.MISC [] first_run = (Ok n, w1)
           ∧ Note.title n = replicate 50 97) ∧
  (∃ n1 w1, Note.update (Some long_title) None None buy_milk first_run
            = (Ok n1, w1) ∧ Note.title n1 = replicate 50 97).
Proof.
  assert (H : (length long_title > 50)%nat) by (vm_compute; lia).
  destruct (C3_title_truncated long_title NoteCategory.MISC [] first_run H)
    as [Hinit Hupdate].
  split; [exact H|]. split; [exact Hinit|].
  exact (Hupdate buy_milk None None).
Defined.


(** C8 at a first run. *)
Lemma C8_witness :
  storage first_run = None ∧
  ∃ p, ProjectManager.load_project first_run = (Ok p, first_run) ∧
       length (Project.memo_collection p) = 0%nat.
Proof.
  split; [reflexivity|].
  exact (C8_load_without_file first_run eq_refl).
Defined.

(** C10 at a record with a title of 60 characters. *)
Lemma C10_witness :
  (length long_title > 50)%nat ∧
  ∃ n w1, Note.from_dict long_title_record first_run = (Ok n, w1) ∧
          Note.title n = replicate 50 97 ∧
          length (Note.title n) = 50%nat.
Proof.
  assert (H : (length long_title > 50)%nat) by (vm_compute; lia).
  split; [exact H|].
  refine (proj1 (C10_from_dict_truncates long_title_record first_run
            long_title (lit "Работа") (lit "text")
            (lit "2024-11-04T12:00:00") (lit "2024-11-04T12:30:00.250000")
            ltac:(vm_compute; reflexivity) ltac:(vm_compute; reflexivity)
            ltac:(vm_compute; reflexivity) ltac:(vm_compute; reflexivity)
            ltac:(vm_compute; reflexivity) _ _ _ H)).
  - exists NoteCategory.WORK. vm_compute; reflexivity.
  - unfold parseable. vm_compute. eexists; reflexivity.
  - unfold parseable. vm_compute. eexists; reflexivity.
Defined.

End instances.

(** * Further properties of the code *)

(** ** [Note.from_dict]: errors, inputs, normal form *)
Section from_dict_properties.

Ltac unfold_from_dict :=
  unfold Note.from_dict, Note.__init__, getitem, NoteCategory.call,
    datetime_fromisoformat, datetime_now, mbind, M_bind, mret, M_ret, raise,
    beyond;
  cbv beta iota.

Lemma fromisoformat_valid (s : str) (d : datetime.t) :
  datetime.fromisoformat s = Some d → datetime.valid d = true.
Proof.
  unfold datetime.fromisoformat.
  destruct (datetime.parse_date s) as [[[[y m] dd] rest]|]; [|discriminate].
  cbn [mbind option_bind].
  destruct (match rest with [] => Some (0, 0, 0, 0) | _ :: tstr => _ end)
    as [[[[hh mi] ss] us]|]; [|discriminate].
  cbn [mbind option_bind].
  destruct (datetime.valid _) eqn:Hv; [|discriminate].
  by intros [= <-].
Qed.

(** X1.  [from_dict] evaluates [data["title"]], [NoteCategory(data["category"])],
    [data["content"]], then the constructor, then the two timestamps, and the
    first step that fails decides the exception: a missing key is a
    [KeyError] naming that key, an unknown category or a timestamp that
    [datetime.fromisoformat] rejects a [ValueError].  The clock has been read
    once by the time the timestamps are looked at, and not before. *)
Theorem X1_from_dict_first_error (data : gmap string str) (w : world) :
  (data !! "title" = None →
   Note.from_dict data w = (Raise (KeyError "title"), w)) ∧
  (is_Some (data !! "title") → data !! "category" = None →
   Note.from_dict data w = (Raise (KeyError "category"), w)) ∧
  (∀ cv, is_Some (data !! "title") → data !! "category" = Some cv →
   ¬ valid_category cv →
   Note.from_dict data w = (Raise ValueError, w)) ∧
  (∀ cv, is_Some (data !! "title") → data !! "category" = Some cv →
   valid_category cv → data !! "content" = None →
   Note.from_dict data w = (Raise (KeyError "content"), w)) ∧
  (∀ cv, is_Some (data !! "title") → data !! "category" = Some cv →
   valid_category cv → is_Some (data !! "content") →
   (data !! "created_at" = None →
    Note.from_dict data w = (Raise (KeyError "created_at"), advance w)) ∧
   (∀ ct, data !! "created_at" = Some ct →
      (certainly_rejected ct →
       Note.from_dict data w = (Raise ValueError, advance w)) ∧
      (parseable ct → data !! "updated_at" = None →
       Note.from_dict data w = (Raise (KeyError "updated_at"), advance w)) ∧
      (∀ ut, parseable ct → data !! "updated_at" = Some ut →
       certainly_rejected ut →
       Note.from_dict data w = (Raise ValueError, advance w)))).
Proof.
  split; [|split; [|split; [|split]]].
  - intros H. unfold_from_dict. by rewrite H.
  - intros [h Hh] H. unfold_from_dict. by rewrite Hh, H.
  - intros cv [h Hh] Hcv Hbad%by_value_None. unfold_from_dict.
    by rewrite Hh, Hcv, Hbad.
  - intros cv [h Hh] Hcv [c Hc]%by_value_valid H. unfold_from_dict.
    by rewrite Hh, Hcv, Hc, H.
  - intros cv [h Hh] Hcv [c Hc]%by_value_valid [b Hb]. split.
    + intros H. unfold_from_dict. by rewrite Hh, Hcv, Hc, Hb, H.
    + intros ct Hct. split; [|split].
      * unfold certainly_rejected. intros Hrej. unfold_from_dict.
        by rewrite Hh, Hcv, Hc, Hb, Hct, (rejected_not_parsed _ Hrej), Hrej.
      * intros [created Hcr] H. unfold_from_dict.
        by rewrite Hh, Hcv, Hc, Hb, Hct, Hcr, H.
      * unfold certainly_rejected. intros ut [created Hcr] Hut Hrej.
        unfold_from_dict.
        by rewrite Hh, Hcv, Hc, Hb, Hct, Hcr, Hut,
          (rejected_not_parsed _ Hrej), Hrej.
Qed.

(** X2.  What [from_dict] returns or raises depends on the values under
    its five keys only: not on any other key of the record, and not on the
    clock or the storage file (the constructor's timestamps are both
    overwritten). *)
Theorem X2_from_dict_reads_five_keys (data1 data2 : gmap string str)
    (w1 w2 : world) :
  Forall (λ k, data1 !! k = data2 !! k) note_keys →
  outcome (Note.from_dict data1) w1 = outcome (Note.from_dict data2) w2.
Proof.
  intros H. rewrite (from_dict_outcome data1 w1 w2).
  apply Forall_cons_1 in H as [H1 H]. apply Forall_cons_1 in H as [H2 H].
  apply Forall_cons_1 in H as [H3 H]. apply Forall_cons_1 in H as [H4 H].
  apply Forall_cons_1 in H as [H5 _].
  unfold outcome. unfold_from_dict. by rewrite H1, H2, H3, H4, H5.
Qed.

(** X3.  A note that [from_dict] returns satisfies the invariant of the
    data model, so writing it with [to_dict] and reading it again gives the
    same note: [to_dict] after [from_dict] is a normal form of the record. *)
Theorem X3_from_dict_normal_form (data : gmap string str) (w w1 : world)
    (n : Note.t) :
  Note.from_dict data w = (Ok n, w1) →
  Note.invariant n ∧
  ∀ u, Note.from_dict (Note.to_dict n) u = (Ok n, advance u).
Proof.
  intros Hn.
  assert (Hinv : Note.invariant n).
  { destruct (from_dict_Ok _ _ _ _ Hn)
      as (h & cv & b & ct & ut & _ & _ & _ & _ & _ & _ & Hcr & Hup & Ht & _).
    split; [rewrite Ht; apply length_take_50|].
    split; eapply fromisoformat_valid; eassumption. }
  split; [exact Hinv|]. intros u. by apply from_dict_to_dict.
Qed.

End from_dict_properties.

(** ** [Project.from_dict], [save_project] and [load_project] *)
Section persistence_properties.






(** A successful comprehension of [from_dict] returns one note per record,
    in order, and has read the clock once per record. *)
Lemma comprehension_from_dict_Ok (l : list (gmap string str)) (w w1 : world)
    (ns : list Note.t) :
  comprehension Note.from_dict l w = (Ok ns, w1) →
  Forall2 (λ d n, ∀ u, outcome (Note.from_dict d) u = Ok n) l ns ∧
  ticks w1 = (ticks w + length l)%nat.
Proof.
  revert w ns; induction l as [|d l IH]; intros w ns.
  - intros [= <- <-]. split; [constructor|cbn; lia].
  - rewrite comprehension_cons.
    destruct (Note.from_dict d w) as [[n|e|] u] eqn:Hd;
      [|discriminate|discriminate].
    destruct (comprehension Note.from_dict l u) as [[ns1|e|] u1] eqn:Hl;
      [|discriminate|discriminate].
    intros [= <- <-]. destruct (IH _ _ Hl) as [Hall Hticks].
    pose proof (from_dict_Ok _ _ _ _ Hd) as Hu.
    assert (u = advance w) as -> by (by decompose [ex and] Hu).
    split.
    + constructor; [|exact Hall]. intros u0.
      rewrite (from_dict_outcome d u0 w). unfold outcome. by rewrite Hd.
    + rewrite Hticks. cbn. lia.
Qed.

(** The first record on which [from_dict] raises ends the comprehension
    with that exception. *)
Lemma comprehension_from_dict_first_error
    (good rest : list (gmap string str)) (bad : gmap string str) (e : exn)
    (w : world) :
  Forall (λ d, ∃ n, ∀ u, outcome (Note.from_dict d) u = Ok n) good →
  (∀ u, outcome (Note.from_dict bad) u = Raise e) →
  outcome (comprehension Note.from_dict (good ++ bad :: rest)) w = Raise e.
Proof. apply comprehension_first_error. Qed.

Lemma utf8_encodable_app (a b : str) :
  ProjectManager.utf8_encodable (a ++ b)
  = ProjectManager.utf8_encodable a && ProjectManager.utf8_encodable b.
Proof. apply forallb_app. Qed.

Lemma utf8_encodable_zero_pad (w : nat) (v : N) :
  ProjectManager.utf8_encodable (datetime.zero_pad w v) = true.
Proof.
  revert v; induction w as [|w IH]; intros v; [reflexivity|].
  cbn [datetime.zero_pad]. rewrite utf8_encodable_app, IH.
  unfold ProjectManager.utf8_encodable. cbn [forallb andb].
  assert (Hd : v mod 10 < 10) by (apply N.mod_upper_bound; lia).
  generalize dependent (v mod 10). intros d Hd.
  rewrite (proj2 (N.ltb_lt _ _)) by lia. reflexivity.
Qed.

(** What [isoformat] writes is ASCII. *)
Lemma utf8_encodable_isoformat (d : datetime.t) :
  ProjectManager.utf8_encodable (datetime.isoformat d) = true.
Proof.
  unfold datetime.isoformat.
  destruct (datetime.microsecond d =? 0);
    [|change (datetime.FULL_STOP :: ?x) with ([datetime.FULL_STOP] ++ x)];
    rewrite !utf8_encodable_app, !utf8_encodable_zero_pad; reflexivity.
Qed.

(** The value of a category has no surrogate. *)
Lemma utf8_encodable_value (c : NoteCategory.t) :
  ProjectManager.utf8_encodable (NoteCategory.value c) = true.
Proof. destruct c; vm_compute; reflexivity. Qed.

(** Of the five texts of a record that [to_dict] writes, only the title and
    the content can fail to encode. *)
Lemma encodable_note_to_dict (n : Note.t) :
  map_Forall (λ _ text, ProjectManager.utf8_encodable text = true)
    (Note.to_dict n)
  ↔ encodable_note n.
Proof.
  split.
  - intros H. destruct (to_dict_keys n) as (H1 & _ & H3 & _).
    split; [exact (H _ _ H1)|exact (H _ _ H3)].
  - intros [Ht Hc]. unfold Note.to_dict.
    rewrite !list_to_map_cons, list_to_map_nil.
    repeat (apply map_Forall_insert_2;
      [first [exact Ht|exact Hc|apply utf8_encodable_value
             |apply utf8_encodable_isoformat]|]).
    apply map_Forall_empty.
Qed.

Lemma encodable_to_dict (p : Project.t) :
  ProjectManager.encodable (Project.to_dict p)
  ↔ Forall encodable_note (Project.memo_collection p).
Proof.
  unfold ProjectManager.encodable, Project.to_dict.
  rewrite map_Forall_singleton, Forall_fmap.
  apply Forall_iff. intros n. apply encodable_note_to_dict.
Qed.

Lemma save_project_Ok (p : Project.t) (w : world) :
  Forall encodable_note (Project.memo_collection p) →
  ProjectManager.save_project p w
  = (Ok (), World (clock w) (ticks w) (Some (Document (Project.to_dict p)))).
Proof.
  intros Hp. unfold ProjectManager.save_project, ProjectManager.json_dump.
  by rewrite decide_True by (by apply encodable_to_dict).
Qed.

Lemma save_project_Raise (p : Project.t) (w : world) :
  ¬ Forall encodable_note (Project.memo_collection p) →
  ProjectManager.save_project p w
  = (Raise UnicodeEncodeError, World (clock w) (ticks w) (Some NotJSON)).
Proof.
  intros Hp. unfold ProjectManager.save_project, ProjectManager.json_dump.
  by rewrite decide_False by (by rewrite encodable_to_dict).
Qed.

Lemma load_project_not_json (w : world) :
  storage w = Some NotJSON →
  ProjectManager.load_project w = (Raise JSONDecodeError, w).
Proof.
  intros Hs.
  unfold ProjectManager.load_project, ProjectManager.path_exists,
    ProjectManager.json_load, mbind, M_bind, mret, M_ret.
  cbv beta iota. rewrite Hs.
  rewrite bool_decide_eq_true_2 by (by eexists).
  cbv beta iota. by rewrite Hs.
Qed.

Lemma project_from_dict_to_dict (p : Project.t) (w : world) :
  Forall Note.invariant (Project.memo_collection p) →
  ∃ w1, Project.from_dict (Project.to_dict p) w = (Ok p, w1).
Proof.
  intros Hp. unfold Project.to_dict.
  rewrite (project_from_dict_run _ _ _ (lookup_singleton_eq _ _)).
  destruct (comprehension_from_dict_to_dict _ w Hp) as [w1 ->].
  exists w1. by destruct p.
Qed.

Lemma save_then_load (p : Project.t) (w : world) :
  Forall Note.invariant (Project.memo_collection p) →
  Forall encodable_note (Project.memo_collection p) →
  outcome ProjectManager.load_project (ProjectManager.save_project p w).2
  = Ok p.
Proof.
  intros Hp Henc. rewrite save_project_Ok by exact Henc. cbn [snd].
  unfold outcome.
  rewrite (load_project_document _ (Project.to_dict p)) by reflexivity.
  edestruct (project_from_dict_to_dict p) as [w1 Hw]; [exact Hp|].
  rewrite Hw. reflexivity.
Qed.

End persistence_properties.

Section persistence_extras.

(** X4.  [Project.from_dict] needs the key ["notes"] ([KeyError] without
    it); when it returns, the project holds exactly one note per record, in
    the order of the records, each the note [Note.from_dict] reads from its
    record, and the clock was read once per record. *)
Theorem X4_project_from_dict_shape
    (data : gmap string (list (gmap string str))) (w : world) :
  (data !! "notes" = None →
   Project.from_dict data w = (Raise (KeyError "notes"), w)) ∧
  (∀ p w1, Project.from_dict data w = (Ok p, w1) →
     ∃ notes, data !! "notes" = Some notes ∧
       Forall2 (λ d n, ∀ u, outcome (Note.from_dict d) u = Ok n)
         notes (Project.memo_collection p) ∧
       length (Project.memo_collection p) = length notes ∧
       ticks w1 = (ticks w + length notes)%nat).
Proof.
  split.
  - intros H. unfold Project.from_dict, getitem, mbind, M_bind, raise.
    cbv beta iota. by rewrite H.
  - intros p w1. destruct (data !! "notes") as [notes|] eqn:Hn.
    + rewrite (project_from_dict_run _ _ _ Hn).
      destruct (comprehension Note.from_dict notes w) as [[ns|e|] u] eqn:Hl;
        [|discriminate|discriminate].
      intros [= <- <-]. destruct (comprehension_from_dict_Ok _ _ _ _ Hl)
        as [Hall Hticks].
      exists notes. repeat split; [exact Hall| |exact Hticks].
      symmetry. exact (Forall2_length _ _ _ Hall).
    + unfold Project.from_dict, getitem, mbind, M_bind, raise.
      cbv beta iota. rewrite Hn. discriminate.
Qed.

(** X5.  [Project.from_dict] stops at the first record that
    [Note.from_dict] rejects and raises that record's exception, whatever
    the records after it hold; no project is returned. *)
Theorem X5_project_from_dict_fails_fast
    (data : gmap string (list (gmap string str)))
    (good rest : list (gmap string str)) (bad : gmap string str) (e : exn)
    (w : world) :
  data !! "notes" = Some (good ++ bad :: rest) →
  Forall (λ d, ∃ n, outcome (Note.from_dict d) w = Ok n) good →
  outcome (Note.from_dict bad) w = Raise e →
  outcome (Project.from_dict data) w = Raise e.
Proof.
  intros Hn Hgood Hbad.
  assert (H : outcome (comprehension Note.from_dict (good ++ bad :: rest)) w
              = Raise e).
  { apply comprehension_from_dict_first_error.
    - eapply Forall_impl; [exact Hgood|]. intros d [n Hd]. exists n.
      intros u0. by rewrite (from_dict_outcome d u0 w).
    - intros u0. by rewrite (from_dict_outcome bad u0 w). }
  unfold outcome in *. rewrite (project_from_dict_run _ _ _ Hn).
  destruct (comprehension Note.from_dict (good ++ bad :: rest) w)
    as [[ns|e1|] u]; cbn in H |- *; [discriminate|congruence|discriminate].
Qed.

(** X6.  [save_project] reads no clock and replaces the storage file,
    whatever it held before.  When every title and content can be encoded in
    [utf-8], the file holds the project's document, and a [load_project] that
    follows returns the project saved.  When a title or a content holds a
    surrogate code point, [save_project] raises [UnicodeEncodeError], the
    file is left with no JSON in it, and a [load_project] that follows raises
    [JSONDecodeError]: the notes stored before are lost. *)
Theorem X6_save_then_load (p : Project.t) (w : world) :
  (Forall encodable_note (Project.memo_collection p) →
   ∃ w1, ProjectManager.save_project p w = (Ok (), w1) ∧
     storage w1 = Some (Document (Project.to_dict p)) ∧
     clock w1 = clock w ∧ ticks w1 = ticks w ∧
     (Forall Note.invariant (Project.memo_collection p) →
      outcome ProjectManager.load_project w1 = Ok p)) ∧
  (¬ Forall encodable_note (Project.memo_collection p) →
   ∃ w1, ProjectManager.save_project p w = (Raise UnicodeEncodeError, w1) ∧
     storage w1 = Some NotJSON ∧
     clock w1 = clock w ∧ ticks w1 = ticks w ∧
     outcome ProjectManager.load_project w1 = Raise JSONDecodeError).
Proof.
  split.
  - intros Henc. eexists. split; [by apply save_project_Ok|].
    split; [reflexivity|]. split; [reflexivity|]. split; [reflexivity|].
    intros Hp. pose proof (save_then_load p w Hp Henc) as H.
    by rewrite save_project_Ok in H by exact Henc.
  - intros Henc. eexists. split; [by apply save_project_Raise|].
    split; [reflexivity|]. split; [reflexivity|]. split; [reflexivity|].
    unfold outcome. by rewrite load_project_not_json by reflexivity.
Qed.

(** X7.  A project that [load_project] returned satisfies the invariant of
    the data model.  If its titles and contents can be encoded, it is stable:
    saved again, in any world, it loads as the same project.  If not (a
    document can hold a surrogate, written as an escape), saving it raises
    [UnicodeEncodeError]. *)
Theorem X7_loaded_project_is_stable (w : world) (p : Project.t) :
  outcome ProjectManager.load_project w = Ok p →
  Forall Note.invariant (Project.memo_collection p) ∧
  (Forall encodable_note (Project.memo_collection p) →
   ∀ u, outcome ProjectManager.load_project
          (ProjectManager.save_project p u).2 = Ok p) ∧
  (¬ Forall encodable_note (Project.memo_collection p) →
   ∀ u, outcome (ProjectManager.save_project p) u = Raise UnicodeEncodeError).
Proof.
  intros Hp%load_project_Ok.
  assert (Hinv : Forall Note.invariant (Project.memo_collection p)).
  { eapply Forall_impl; [exact Hp|]. intros n (d & u & u1 & Hn).
    destruct (from_dict_Ok _ _ _ _ Hn)
      as (h & cv & b & ct & ut & _ & _ & _ & _ & _ & _ & Hcr & Hup & Ht & _).
    split; [rewrite Ht; apply length_take_50|].
    split; eapply fromisoformat_valid; eassumption. }
  split; [exact Hinv|]. split.
  - intros Henc u. by apply save_then_load.
  - intros Henc u. unfold outcome. by rewrite save_project_Raise.
Qed.


End persistence_extras.

(** ** [NoteCategory], the title bound, [update], and list edits *)
Section model_extras.

(** X9.  The seven display strings of [NoteCategory] are pairwise distinct,
    and the lookup by value inverts [value]: [NoteCategory(c.value)] is [c],
    and a string that the lookup accepts is the value of the member it
    returns. *)
Theorem X9_category_value_lookup :
  NoDup (NoteCategory.value <$> NoteCategory.members) ∧
  (∀ c c1, NoteCategory.value c = NoteCategory.value c1 → c = c1) ∧
  (∀ c, NoteCategory.by_value (NoteCategory.value c) = Some c) ∧
  (∀ v c, NoteCategory.by_value v = Some c → NoteCategory.value c = v).
Proof.
  assert (Hinj : ∀ c c1,
    NoteCategory.value c = NoteCategory.value c1 → c = c1).
  { intros c c1 H.
    pose proof (by_value_value c) as Hc. rewrite H, by_value_value in Hc.
    congruence. }
  split; [|split; [exact Hinj|split; [exact by_value_value|exact by_value_Some]]].
  apply NoDup_fmap_2; [exact Hinj|].
  unfold NoteCategory.members.
  repeat (apply NoDup_cons_2;
    [rewrite ?not_elem_of_cons; repeat split;
       first [discriminate|apply not_elem_of_nil]|]).
  apply NoDup_nil_2.
Qed.

(** X10.  The title of a note never exceeds 50 characters, however the
    note was obtained: by the constructor, by any sequence of [update]
    calls, or by [from_dict] from any record at all. *)
Theorem X10_title_never_longer_than_50
    (allowed : world → gmap string str → Prop) (w : world) (n : Note.t) :
  reachable allowed w n → (length (Note.title n) ≤ 50)%nat.
Proof.
  induction 1 as [h c b w n w1 Hrun|h c b w n n1 w1 _ IH Hrun
                 |data w n w1 _ Hrun|w w1 n _ IH _].
  - rewrite init_run in Hrun. injection Hrun as <- <-. apply length_take_50.
  - rewrite update_run in Hrun. injection Hrun as <- <-. cbn [Note.title].
    destruct h as [h|]; [|exact IH].
    destruct (str_truthy h); [apply length_take_50|exact IH].
  - by eapply from_dict_title_bound.
  - exact IH.
Qed.

(** X11.  [update] with three non-empty arguments replaces title, category
    and content; a heading of at most 50 characters is stored as it is. *)
Theorem X11_update_replaces (h : str) (c : NoteCategory.t) (b : str)
    (n : Note.t) (w : world) :
  h ≠ [] → b ≠ [] →
  ∃ n1 w1, Note.update (Some h) (Some c) (Some b) n w = (Ok n1, w1) ∧
    Note.title n1 = take 50 h ∧
    ((length h ≤ 50)%nat → Note.title n1 = h) ∧
    Note.category n1 = c ∧ Note.content n1 = b.
Proof.
  intros Hh Hb. eexists _, _. split; [apply update_run|].
  destruct h as [|x h]; [done|]. destruct b as [|y b]; [done|].
  cbn [str_truthy Note.title Note.category Note.content default].
  repeat split. intros Hlen. by apply take_ge.
Qed.

Lemma delete_app_last {A : Type} (l : list A) (x : A) :
  delete (length l) (l ++ [x]) = l.
Proof. induction l as [|y l IH]; [done|]. cbn. f_equal. exact IH. Qed.

Lemma delete_app_lt {A : Type} (l : list A) (x : A) (i : nat) :
  (i < length l)%nat → delete i (l ++ [x]) = delete i l ++ [x].
Proof.
  revert i; induction l as [|y l IH]; intros i Hi; [cbn in Hi; lia|].
  destruct i as [|i]; [done|]. cbn in *. f_equal. apply IH. lia.
Qed.

(** X12.  Removing at the index a note was just added at gives the project
    back, and removing at an earlier index commutes with the addition. *)
Theorem X12_add_then_remove (p : Project.t) (n : Note.t) :
  Project.remove_note_by_index
    (Z.of_nat (length (Project.memo_collection p))) (Project.add_note n p)
  = p ∧
  ∀ i : Z, (0 ≤ i < Z.of_nat (length (Project.memo_collection p)))%Z →
    Project.remove_note_by_index i (Project.add_note n p)
    = Project.add_note n (Project.remove_note_by_index i p).
Proof.
  destruct p as [l].
  unfold Project.remove_note_by_index, Project.add_note,
    Project.with_memo_collection.
  cbn [Project.memo_collection]. split.
  - rewrite !bool_decide_eq_true_2 by (rewrite ?length_app; cbn; lia).
    cbn [andb]. by rewrite Nat2Z.id, delete_app_last.
  - intros i [H0 Hi].
    rewrite !bool_decide_eq_true_2 by (rewrite ?length_app; cbn; lia).
    cbn [andb Project.memo_collection]. by rewrite delete_app_lt by lia.
Qed.

Lemma reachable_stamped (w : world) (n : Note.t) :
  reachable no_record w n → stamped w n.
Proof.
  induction 1 as [h c b w n w1 Hrun|h c b w n n1 w1 _ _ Hrun
                 |data w n w1 [] _|w w1 n _ (i & Hi & Hu) [Hclk Hticks]].
  - rewrite init_run in Hrun. injection Hrun as <- <-.
    exists (ticks w). split; [cbn; lia|done].
  - rewrite update_run in Hrun. injection Hrun as <- <-.
    exists (ticks w). split; [cbn; lia|done].
  - exists i. split; [lia|]. by rewrite Hclk.
Qed.

(** X13.  When the clock has moved on since the readings taken so far,
    [update] makes [updated_at] strictly later than it was, for a note built
    by the constructor and earlier [update] calls. *)
Theorem X13_update_moves_updated_at (w : world) (n : Note.t)
    (heading : option str) (c : option NoteCategory.t) (body : option str) :
  clock_moves_on w → reachable no_record w n →
  ∃ n1 w1, Note.update heading c body n w = (Ok n1, w1) ∧
    datetime.lt (Note.updated_at n) (Note.updated_at n1) = true.
Proof.
  intros Hclock (i & Hi & Hu)%reachable_stamped.
  eexists _, _. split; [apply update_run|].
  cbn [Note.updated_at]. rewrite Hu. by apply Hclock.
Qed.

End model_extras.

(** ** The further properties at concrete inputs *)
Section more_instances.

Lemma long_title_record_run :
  Note.from_dict long_title_record first_run
  = (Ok long_title_note, advance first_run).
Proof.
  rewrite (from_dict_run long_title_record first_run
             long_title (lit "Работа") (lit "text")
             (lit "2024-11-04T12:00:00") (lit "2024-11-04T12:30:00.250000"))
    by (vm_compute; reflexivity).
  replace (NoteCategory.by_value (lit "Работа")) with (Some NoteCategory.WORK)
    by (vm_compute; reflexivity).
  replace (datetime.fromisoformat (lit "2024-11-04T12:00:00"))
    with (Some (datetime.mk 2024 11 4 12 0 0 0)) by (vm_compute; reflexivity).
  replace (datetime.fromisoformat (lit "2024-11-04T12:30:00.250000"))
    with (Some (datetime.mk 2024 11 4 12 30 0 250000))
    by (vm_compute; reflexivity).
  reflexivity.
Qed.

Lemma buy_milk_reachable : reachable no_record (advance first_run) buy_milk.
Proof.
  apply (reach_init _ (lit "Buy milk") NoteCategory.HOME
           (lit "2% milk, oat milk") first_run).
  rewrite init_run. reflexivity.
Qed.

Lemma clock_moves_on_after_one : clock_moves_on (advance first_run).
Proof.
  intros i Hi. destruct i as [|i]; [vm_compute; reflexivity|cbn in Hi; lia].
Qed.

Lemma two_notes_invariant :
  Forall Note.invariant [buy_milk; buy_milk_and_eggs].
Proof.
  constructor; [exact buy_milk_invariant|].
  constructor; [exact buy_milk_and_eggs_invariant|constructor].
Qed.

Lemma two_notes_encodable :
  Forall encodable_note [buy_milk; buy_milk_and_eggs].
Proof.
  constructor; [split; vm_compute; reflexivity|].
  constructor; [split; vm_compute; reflexivity|constructor].
Qed.

(** X2 at a record and the same record with one more key, in two worlds. *)
Lemma X2_witness :
  Forall (λ k, long_title_record !! k = coloured_record !! k) note_keys ∧
  outcome (Note.from_dict long_title_record) first_run
  = outcome (Note.from_dict coloured_record) bad_storage.
Proof.
  assert (H : Forall (λ k, long_title_record !! k = coloured_record !! k)
                note_keys).
  { unfold note_keys. repeat (constructor; [vm_compute; reflexivity|]).
    constructor. }
  split; [exact H|].
  exact (X2_from_dict_reads_five_keys long_title_record coloured_record
           first_run bad_storage H).
Defined.

(** X3 at the record with the long title. *)
Lemma X3_witness :
  Note.from_dict long_title_record first_run
  = (Ok long_title_note, advance first_run) ∧
  Note.invariant long_title_note ∧
  Note.from_dict (Note.to_dict long_title_note) bad_storage
  = (Ok long_title_note, advance bad_storage).
Proof.
  destruct (X3_from_dict_normal_form long_title_record first_run
              (advance first_run) long_title_note long_title_record_run)
    as [Hinv Hagain].
  split; [exact long_title_record_run|].
  split; [exact Hinv|exact (Hagain bad_storage)].
Defined.

(** X5 at a document whose second record has a bad category and whose
    third has no key: the second record's [ValueError] is what is raised. *)
Lemma X5_witness :
  three_records !! "notes"
  = Some ([Note.to_dict buy_milk] ++ bad_category_record :: [∅]) ∧
  outcome (Project.from_dict three_records) first_run = Raise ValueError.
Proof.
  assert (Hn : three_records !! "notes"
               = Some ([Note.to_dict buy_milk] ++ bad_category_record :: [∅]))
    by apply lookup_singleton_eq.
  split; [exact Hn|].
  refine (X5_project_from_dict_fails_fast three_records
            [Note.to_dict buy_milk] [∅] bad_category_record ValueError
            first_run Hn _ ltac:(vm_compute; reflexivity)).
  constructor; [|constructor].
  exists buy_milk. unfold outcome.
  by rewrite (from_dict_to_dict buy_milk first_run buy_milk_invariant).
Defined.

(** X6 at a project of two notes, saved over a file that held something
    else, and at a project whose note has a surrogate for title. *)
Lemma X6_witness :
  Forall encodable_note [buy_milk; buy_milk_and_eggs] ∧
  Forall Note.invariant [buy_milk; buy_milk_and_eggs] ∧
  (∃ w1, ProjectManager.save_project
           (Project.mk [buy_milk; buy_milk_and_eggs]) bad_storage = (Ok (), w1) ∧
     storage w1
     = Some (Document (Project.to_dict (Project.mk [buy_milk; buy_milk_and_eggs]))) ∧
     outcome ProjectManager.load_project w1
     = Ok (Project.mk [buy_milk; buy_milk_and_eggs])) ∧
  ¬ Forall encodable_note [surrogate_note] ∧
  (∃ w1, ProjectManager.save_project (Project.mk [surrogate_note]) bad_storage
         = (Raise UnicodeEncodeError, w1) ∧
     storage w1 = Some NotJSON ∧
     outcome ProjectManager.load_project w1 = Raise JSONDecodeError).
Proof.
  assert (Hbad : ¬ Forall encodable_note [surrogate_note]).
  { intros [[H _] _]%Forall_cons_1. vm_compute in H. discriminate H. }
  split; [exact two_notes_encodable|].
  split; [exact two_notes_invariant|].
  split; [|split; [exact Hbad|]].
  - destruct (proj1 (X6_save_then_load
                       (Project.mk [buy_milk; buy_milk_and_eggs]) bad_storage)
                two_notes_encodable)
      as (w1 & Hsave & Hs & _ & _ & Hload).
    exists w1. split; [exact Hsave|]. split; [exact Hs|].
    exact (Hload two_notes_invariant).
  - destruct (proj2 (X6_save_then_load (Project.mk [surrogate_note])
                       bad_storage) Hbad)
      as (w1 & Hsave & Hs & _ & _ & Hload).
    exists w1. split; [exact Hsave|]. split; [exact Hs|exact Hload].
Defined.

(** X7 at the project loaded from [saved_storage]. *)
Lemma X7_witness :
  outcome ProjectManager.load_project saved_storage
  = Ok (Project.mk [buy_milk; buy_milk_and_eggs]) ∧
  Forall encodable_note [buy_milk; buy_milk_and_eggs] ∧
  outcome ProjectManager.load_project
    (ProjectManager.save_project (Project.mk [buy_milk; buy_milk_and_eggs])
       first_run).2
  = Ok (Project.mk [buy_milk; buy_milk_and_eggs]).
Proof.
  assert (H : outcome ProjectManager.load_project saved_storage
              = Ok (Project.mk [buy_milk; buy_milk_and_eggs])).
  { unfold outcome.
    rewrite (load_project_document saved_storage
               (Project.to_dict (Project.mk [buy_milk; buy_milk_and_eggs])))
      by reflexivity.
    destruct (project_from_dict_to_dict
                (Project.mk [buy_milk; buy_milk_and_eggs]) saved_storage
                two_notes_invariant) as [w1 ->].
    reflexivity. }
  split; [exact H|]. split; [exact two_notes_encodable|].
  exact (proj1 (proj2 (X7_loaded_project_is_stable saved_storage
                  (Project.mk [buy_milk; buy_milk_and_eggs]) H))
           two_notes_encodable first_run).
Defined.

(** X10 at the note read from [backdated_record]. *)
Lemma X10_witness :
  reachable any_record (advance first_run) backdated_note ∧
  (length (Note.title backdated_note) ≤ 50)%nat.
Proof.
  split; [exact backdated_note_reachable|].
  exact (X10_title_never_longer_than_50 any_record (advance first_run)
           backdated_note backdated_note_reachable).
Defined.

(** X11 at the edit of the scenario, with a new category and content. *)
Lemma X11_witness :
  ∃ n1 w1,
    Note.update (Some (lit "Buy milk and eggs")) (Some NoteCategory.WORK)
      (Some (lit "12 eggs")) buy_milk (advance first_run) = (Ok n1, w1) ∧
    Note.title n1 = take 50 (lit "Buy milk and eggs") ∧
    ((length (lit "Buy milk and eggs") ≤ 50)%nat →
     Note.title n1 = lit "Buy milk and eggs") ∧
    Note.category n1 = NoteCategory.WORK ∧ Note.content n1 = lit "12 eggs".
Proof.
  exact (X11_update_replaces (lit "Buy milk and eggs") NoteCategory.WORK
           (lit "12 eggs") buy_milk (advance first_run)
           ltac:(vm_compute; discriminate) ltac:(vm_compute; discriminate)).
Defined.

(** X13 at the first update of the note of the scenario. *)
Lemma X13_witness :
  clock_moves_on (advance first_run) ∧
  reachable no_record (advance first_run) buy_milk ∧
  ∃ n1 w1,
    Note.update (Some (lit "Buy milk and eggs")) None None buy_milk
      (advance first_run) = (Ok n1, w1) ∧
    datetime.lt (Note.updated_at buy_milk) (Note.updated_at n1) = true.
Proof.
  split; [exact clock_moves_on_after_one|].
  split; [exact buy_milk_reachable|].
  exact (X13_update_moves_updated_at (advance first_run) buy_milk
           (Some (lit "Buy milk and eggs")) None None
           clock_moves_on_after_one buy_milk_reachable).
Defined.

End more_instances.
